(** * EMDAT eye-tracking feature generation: TobiiV2 parser and batch reader

    A shallow embedding of

    - [TobiiV2Recording.read_saccade_data], [TobiiV2Recording.read_all_data]
      and [TobiiV2Recording.read_fixation_data]
      (src/EMDAT_eyetracker/TobiiV2Recording.py), and
    - [BasicParticipant.__init__] and [read_participants_Basic]
      (src/BasicParticipant.py),

    together with the properties the specification states about them.

    Conventions of the embedding.

    - A Python exception is a value of [exn]; code that may raise returns a
      [result].
    - A file is the list of rows [csv.DictReader] yields for it.
    - [read_saccade_data] is given twice: on records of the eleven columns
      it reads (Part I), and on dictionaries, where the lookup of a missing
      column raises [KeyError] (Part V).  The two are related at the end.
    - Python integers are [Z].  The float quotient of the two sample counters
      and its comparison with the quality threshold are carried out on exact
      rationals ([Q]); the other floats (distances, speeds, pupil sizes) stay
      abstract.
    - The modules [EMDAT_core.*] and [params] are not part of the sources at
      hand.  What the code uses of them is collected in three interfaces,
      [EMDAT_utils], [EMDAT_pupil] and [EMDAT_core], over which everything is
      stated; the examples instantiate them.
    - What is printed on the standard output is left out. *)

From Stdlib Require Import ZArith QArith Lia Ascii String.
From Stdlib Require Import Sorting.Sorted Sorting.Permutation.
From stdpp Require Import base option list strings gmap.

Local Open Scope string_scope.
Local Open Scope list_scope.
Local Open Scope Z_scope.

(** ** Exceptions and results *)

Inductive exn : Type :=
| ZeroDivisionError
| IndexError
| KeyError (key : string)
| ValueError
| OverflowError
| UnboundLocalError (name : string)
| Exception (msg : string).

Inductive result (A : Type) : Type :=
| Ok (a : A)
| Raise (e : exn).

Arguments Ok {A} a.
Arguments Raise {A} e.

#[global] Instance result_ret : MRet result := fun A a => Ok a.
#[global] Instance result_bind : MBind result := fun A B f m =>
  match m with
  | Ok a => f a
  | Raise e => Raise e
  end.

(** [for x in xs: st = body st x], stopping at the first exception. *)
Fixpoint foldM {A S : Type} (body : S -> A -> result S) (st : S) (xs : list A)
  : result S :=
  match xs with
  | [] => Ok st
  | x :: xs' => st' ← body st x; foldM body st' xs'
  end.

(** Truth value of a string used as a condition: empty strings are false. *)
Definition truthy (s : string) : bool := negb (String.eqb s "").

(** ** Decimal integer literals

    A reader of optionally signed decimal literals.  It only serves to
    instantiate the absent [cast_int] and [float] conversions on examples. *)

Fixpoint position (c : ascii) (s : string) (n : Z) : option Z :=
  match s with
  | EmptyString => None
  | String d s' => if Ascii.eqb c d then Some n else position c s' (n + 1)
  end.

(** The value of a decimal digit: its position among the ten digits. *)
Definition digit_of (c : ascii) : option Z := position c "0123456789" 0.

Fixpoint digits_value (s : string) (acc : Z) : option Z :=
  match s with
  | EmptyString => Some acc
  | String c s' => d ← digit_of c; digits_value s' (10 * acc + d)
  end.

Definition int_literal (s : string) : option Z :=
  match s with
  | EmptyString => None
  | String "-"%char EmptyString => None
  | String "-"%char s' => Z.opp <$> digits_value s' 0
  | _ => digits_value s 0
  end.

(** ** Part I: the TobiiV2 parser *)

(** What [read_saccade_data] uses of [EMDAT_core.utils], [EMDAT_core.Recording]
    and [params]. *)
Class EMDAT_utils : Type := {
  (** [EMDAT_core.utils.cast_int] on a string. *)
  cast_int : string -> Z;
  (** Python floats that are not compared: distances and speeds. *)
  Float : Type;
  (** [EMDAT_core.Recording.get_saccade_distance]. *)
  get_saccade_distance : list (Z * Z * Z) -> Float;
  (** [float(d) / n] for a non-zero integer [n]. *)
  float_div : Float -> Z -> Float;
  (** [params.VALID_SAMPLES_PROP_SACCADE]. *)
  VALID_SAMPLES_PROP_SACCADE : Q
}.

(** A row of the data file, restricted to the columns [read_saccade_data]
    reads; the file's header is assumed to have all of them.  Part V gives
    the loop on dictionaries, which may lack columns. *)
Record Row : Type := {
  MediaName : string;
  EyeTrackerTimestamp : string;
  GazeEventType : string;
  SaccadeIndex : string;
  ValidityLeft : string;
  ValidityRight : string;
  GazePointX : string;           (* "GazePointX (ADCSpx)" *)
  GazePointY : string;           (* "GazePointY (ADCSpx)" *)
  RecordingTimestamp : string;
  FixationPointX : string;       (* "FixationPointX (MCSpx)" *)
  FixationPointY : string        (* "FixationPointY (MCSpx)" *)
}.

(** A gaze point: timestamp, X, Y. *)
Definition point : Type := Z * Z * Z.
Definition pt_time (p : point) : Z := p.1.1.
Definition pt_x (p : point) : Z := p.1.2.
Definition pt_y (p : point) : Z := p.2.

(** [current_index] starts as the integer 0 and later holds the string of the
    "SaccadeIndex" column. *)
Inductive index_val : Type :=
| IdxInt (z : Z)
| IdxStr (s : string).

Section TobiiV2.
Context `{U : EMDAT_utils}.

(** [cast_int] leaves an integer as it is. *)
Definition cast_int_val (v : index_val) : Z :=
  match v with
  | IdxInt z => z
  | IdxStr s => cast_int s
  end.

(** The dictionary [data] handed to the [Saccade] constructor. *)
Record Saccade : Type := {
  saccadeindex : Z;
  timestamp : Z;
  saccadeduration : Z;
  saccadestartpointx : Z;
  saccadestartpointy : Z;
  saccadeendpointx : Z;
  saccadeendpointy : Z;
  saccadedistance : Float;
  saccadespeed : Float;
  saccadeacceleration : Z;
  saccadequality : Q
}.

(** The local variables of [read_saccade_data]. *)
Record state : Type := {
  all_saccade : list Saccade;
  in_saccade : bool;
  in_fixation : bool;
  last_gaze_coord : point;
  saccade_vect : list point;
  saccade_duration : Z;
  current_index : index_val;
  nb_invalid_temp : Z;
  nb_valid_sample : Z;
  nb_sample : Z;
  last_valid : bool
}.

Definition init_state : state := {|
  all_saccade := [];
  in_saccade := false;
  in_fixation := false;
  last_gaze_coord := (0, 0, 0);
  saccade_vect := [];
  saccade_duration := 0;
  current_index := IdxInt 0;
  nb_invalid_temp := 0;
  nb_valid_sample := 0;
  nb_sample := 0;
  last_valid := false
|}.

(** [row["MediaName"] != 'Screen Recordings (1)' or not
    row["EyeTrackerTimestamp"]]: the row is ignored. *)
Definition skipped (row : Row) : bool :=
  negb (String.eqb (MediaName row) "Screen Recordings (1)")
  || negb (truthy (EyeTrackerTimestamp row)).

(** [cast_int(ValidityLeft) < 2 or cast_int(ValidityRight) < 2]. *)
Definition eyes_valid (row : Row) : bool :=
  (cast_int (ValidityLeft row) <? 2) || (cast_int (ValidityRight row) <? 2).

Definition has_gaze (row : Row) : bool :=
  truthy (GazePointX row) && truthy (GazePointY row).

Definition has_fixation_point (row : Row) : bool :=
  truthy (FixationPointX row) && truthy (FixationPointY row).

(** The condition guarding every append of a gaze sample. *)
Definition valid_gaze (row : Row) : bool := eyes_valid row && has_gaze row.

Definition gaze_sample (row : Row) : point :=
  (cast_int (RecordingTimestamp row), cast_int (GazePointX row),
   cast_int (GazePointY row)).

Definition fixation_sample (row : Row) : point :=
  (cast_int (RecordingTimestamp row), cast_int (FixationPointX row),
   cast_int (FixationPointY row)).

Definition is_fixation (row : Row) : bool :=
  String.eqb (GazeEventType row) "Fixation".
Definition is_saccade (row : Row) : bool :=
  String.eqb (GazeEventType row) "Saccade".

(** [float(a) / b]. *)
Definition float_quot (a b : Z) : result Q :=
  if b =? 0 then Raise ZeroDivisionError
  else Ok (inject_Z a / inject_Z b)%Q.

(** [v[0]] and [v[-1]]. *)
Definition first_point (v : list point) : result point :=
  match v with
  | [] => Raise IndexError
  | p :: _ => Ok p
  end.

Definition last_point (v : list point) : result point :=
  match last v with
  | None => Raise IndexError
  | Some p => Ok p
  end.

(** Branch [if in_fixation:]. *)
Definition step_in_fixation (st : state) (row : Row) : result state :=
  if is_fixation row then
    Ok {| all_saccade := all_saccade st;
          in_saccade := in_saccade st;
          in_fixation := in_fixation st;
          last_gaze_coord := last_gaze_coord st;
          saccade_vect := saccade_vect st;
          saccade_duration := saccade_duration st;
          current_index := current_index st;
          nb_invalid_temp := 0;
          nb_valid_sample := nb_valid_sample st;
          nb_sample := nb_sample st;
          last_valid := last_valid st |}
  else if is_saccade row then
    (* new saccade *)
    let vect0 := [last_gaze_coord st] in
    let nv0 := 0 in
    let '(vect1, nv1) :=
      if valid_gaze row then (vect0 ++ [gaze_sample row], nv0 + 1)
      else (vect0, nv0) in
    let nv2 := if last_valid st then nv1 + 1 else nv1 in
    let ns := 2 + nb_invalid_temp st in
    Ok {| all_saccade := all_saccade st;
          in_saccade := true;
          in_fixation := false;
          last_gaze_coord := last_gaze_coord st;
          saccade_vect := vect1;
          saccade_duration := saccade_duration st;
          current_index := IdxStr (SaccadeIndex row);
          nb_invalid_temp := 0;
          nb_valid_sample := nv2;
          nb_sample := ns;
          last_valid := last_valid st |}
  else
    (* unclassified gaze samples *)
    Ok {| all_saccade := all_saccade st;
          in_saccade := in_saccade st;
          in_fixation := in_fixation st;
          last_gaze_coord := last_gaze_coord st;
          saccade_vect := saccade_vect st;
          saccade_duration := saccade_duration st;
          current_index := current_index st;
          nb_invalid_temp := nb_invalid_temp st + 1;
          nb_valid_sample := nb_valid_sample st;
          nb_sample := nb_sample st;
          last_valid := last_valid st |}.

(** The window and the two counters at the moment [rate_valid_sample] is
    computed, when the row closes the current saccade. *)
Definition closing_window (st : state) (row : Row) : list point * Z * Z :=
  let '(vect1, nv1) :=
    if valid_gaze row then
      (saccade_vect st ++ [gaze_sample row], nb_valid_sample st + 1)
    else if has_fixation_point row then
      (saccade_vect st ++ [fixation_sample row], nb_valid_sample st + 1)
    else (saccade_vect st, nb_valid_sample st) in
  (vect1, nv1, nb_sample st + 1).

(** Branch [elif in_saccade:]; the final [nb_invalid_temp = 0] of the
    branch is folded into each case. *)
Definition step_in_saccade (st : state) (row : Row) : result state :=
  if is_fixation row then
    (* end of last saccade *)
    let '(vect1, nv1, ns1) := closing_window st row in
    rate_valid_sample ← float_quot nv1 ns1;
    if Qle_bool VALID_SAMPLES_PROP_SACCADE rate_valid_sample then
      p0 ← first_point vect1;
      let duration := cast_int (RecordingTimestamp row) - pt_time p0 in
      let dist := get_saccade_distance vect1 in
      speed ← (if duration =? 0 then Raise ZeroDivisionError
               else Ok (float_div dist duration));
      pl ← last_point vect1;
      let data := {| saccadeindex := cast_int_val (current_index st);
                     timestamp := pt_time p0;
                     saccadeduration := duration;
                     saccadestartpointx := pt_x p0;
                     saccadestartpointy := pt_y p0;
                     saccadeendpointx := pt_x pl;
                     saccadeendpointy := pt_y pl;
                     saccadedistance := dist;
                     saccadespeed := speed;
                     saccadeacceleration := -1;
                     saccadequality := rate_valid_sample |} in
      Ok {| all_saccade := all_saccade st ++ [data];
            in_saccade := false;
            in_fixation := true;
            last_gaze_coord := last_gaze_coord st;
            saccade_vect := vect1;
            saccade_duration := duration;
            current_index := current_index st;
            nb_invalid_temp := 0;
            nb_valid_sample := 0;
            nb_sample := 0;
            last_valid := last_valid st |}
    else
      Ok {| all_saccade := all_saccade st;
            in_saccade := false;
            in_fixation := true;
            last_gaze_coord := last_gaze_coord st;
            saccade_vect := vect1;
            saccade_duration := saccade_duration st;
            current_index := current_index st;
            nb_invalid_temp := 0;
            nb_valid_sample := nv1;
            nb_sample := ns1;
            last_valid := last_valid st |}
  else if is_saccade row then
    let '(vect1, nv1) :=
      if valid_gaze row then
        (saccade_vect st ++ [gaze_sample row], nb_valid_sample st + 1)
      else (saccade_vect st, nb_valid_sample st) in
    Ok {| all_saccade := all_saccade st;
          in_saccade := in_saccade st;
          in_fixation := in_fixation st;
          last_gaze_coord := last_gaze_coord st;
          saccade_vect := vect1;
          saccade_duration := saccade_duration st;
          current_index := current_index st;
          nb_invalid_temp := 0;
          nb_valid_sample := nv1;
          nb_sample := nb_sample st + 1;
          last_valid := last_valid st |}
  else
    (* unclassified gaze samples *)
    Ok {| all_saccade := all_saccade st;
          in_saccade := in_saccade st;
          in_fixation := in_fixation st;
          last_gaze_coord := last_gaze_coord st;
          saccade_vect := saccade_vect st;
          saccade_duration := saccade_duration st;
          current_index := current_index st;
          nb_invalid_temp := 0;
          nb_valid_sample := nb_valid_sample st;
          nb_sample := nb_sample st + 1;
          last_valid := last_valid st |}.

(** Branch [else:], waiting for the first fixation. *)
Definition step_waiting (st : state) (row : Row) : result state :=
  if is_fixation row then
    Ok {| all_saccade := all_saccade st;
          in_saccade := in_saccade st;
          in_fixation := true;
          last_gaze_coord := last_gaze_coord st;
          saccade_vect := saccade_vect st;
          saccade_duration := saccade_duration st;
          current_index := current_index st;
          nb_invalid_temp := nb_invalid_temp st;
          nb_valid_sample := nb_valid_sample st;
          nb_sample := nb_sample st;
          last_valid := last_valid st |}
  else Ok st.

(** The trailing update of [last_gaze_coord] and [last_valid]. *)
Definition update_last_gaze (st : state) (row : Row) : state :=
  let '(coord, valid) :=
    if has_gaze row then (gaze_sample row, eyes_valid row)
    else if is_fixation row && has_fixation_point row then
      (fixation_sample row, true)
    else (last_gaze_coord st, last_valid st) in
  {| all_saccade := all_saccade st;
     in_saccade := in_saccade st;
     in_fixation := in_fixation st;
     last_gaze_coord := coord;
     saccade_vect := saccade_vect st;
     saccade_duration := saccade_duration st;
     current_index := current_index st;
     nb_invalid_temp := nb_invalid_temp st;
     nb_valid_sample := nb_valid_sample st;
     nb_sample := nb_sample st;
     last_valid := valid |}.

(** One iteration of [for row in reader:]. *)
Definition step (st : state) (row : Row) : result state :=
  if skipped row then Ok st
  else
    st' ← (if in_fixation st then step_in_fixation st row
           else if in_saccade st then step_in_saccade st row
           else step_waiting st row);
    Ok (update_last_gaze st' row).

Definition run (st : state) (rows : list Row) : result state :=
  foldM step st rows.

Definition read_saccade_data (rows : list Row) : result (list Saccade) :=
  st ← run init_state rows; Ok (all_saccade st).

(** The row closes the saccade window of [st]. *)
Definition closes (st : state) (row : Row) : Prop :=
  skipped row = false /\ in_fixation st = false /\ in_saccade st = true /\
  is_fixation row = true.

Definition quality_in_unit (s : Saccade) : Prop :=
  (0 <= saccadequality s)%Q /\ (saccadequality s <= 1)%Q.

(** What holds of the local variables between two iterations. *)
Record invariant (st : state) : Prop := {
  inv_exclusive : in_fixation st = true -> in_saccade st = false;
  inv_unclassified : 0 <= nb_invalid_temp st;
  inv_counters :
    in_saccade st = true ->
    0 <= nb_valid_sample st <= nb_sample st /\ 2 <= nb_sample st;
  inv_window : in_saccade st = true -> saccade_vect st <> [];
  inv_quality : Forall quality_in_unit (all_saccade st)
}.

End TobiiV2.

(** ** Part II: [read_all_data] *)

(** What [read_all_data] uses of Python and of [EMDAT_core.Recording]. *)
Class EMDAT_pupil `{U : EMDAT_utils} : Type := {
  (** [float(s)]; [None] stands for the [ValueError] of a malformed string. *)
  float_of_str : string -> option Float;
  (** [int(f)], which raises on infinities and NaN. *)
  int_of_float : Float -> result Z;
  (** [get_pupil_size(pupil_left, pupil_right)]. *)
  get_pupil_size : option Float -> option Float -> Float;
  (** [get_pupil_velocity(last_left, last_right, left, right, dt)]. *)
  get_pupil_velocity :
    option Float -> option Float -> option Float -> option Float -> Z -> Float;
  (** [get_distance(distance_left, distance_right)]. *)
  get_distance : option Float -> option Float -> Float
}.

Module AllData.
Section AllData.
Context `{P : EMDAT_pupil}.

(** A row is the dictionary of the file's columns. *)
Definition getitem (row : gmap string string) (col : string) : result string :=
  match row !! col with
  | Some v => Ok v
  | None => Raise (KeyError col)
  end.

Definition float (s : string) : result Float :=
  match float_of_str s with
  | Some f => Ok f
  | None => Raise ValueError
  end.

(** The dictionary [data] handed to the [Datapoint] constructor. *)
Record Datapoint : Type := {
  timestamp : Z;
  pupilsize : Float;
  pupilvelocity : Float;
  distance : Float;
  is_valid : bool;
  is_valid_blink : option bool;
  stimuliname : option string;
  fixationindex : option Z;
  gazepointxleft : Float
}.

(** The local variables of [read_all_data]. *)
Record state : Type := {
  all_data : list Datapoint;
  last_pupil_left : option Float;
  last_pupil_right : option Float;
  last_time : Z
}.

Definition init_state : state :=
  {| all_data := []; last_pupil_left := None; last_pupil_right := None;
     last_time := -1 |}.

(** The [Datapoint] built for one row. *)
Definition datapoint_of (st : state) (row : gmap string string)
  : result Datapoint :=
  let pupil_left : option Float := None in
  let pupil_right : option Float := None in
  let distance_left : option Float := None in
  let distance_right : option Float := None in
  ts ← getitem row "RecordingTimestamp";
  tf ← float ts;
  timestamp ← int_of_float tf;
  avg_x ← getitem row "avg_x";
  gx ← float avg_x;
  Ok {| timestamp := timestamp;
        pupilsize := get_pupil_size pupil_left pupil_right;
        pupilvelocity :=
          get_pupil_velocity (last_pupil_left st) (last_pupil_right st)
            pupil_left pupil_right (timestamp - last_time st);
        distance := get_distance distance_left distance_right;
        is_valid := true;
        is_valid_blink := None;
        stimuliname := None;
        fixationindex := None;
        gazepointxleft := gx |}.

(** One iteration of [for row in reader:]. *)
Definition step (st : state) (row : gmap string string) : result state :=
  dp ← datapoint_of st row;
  Ok {| all_data := all_data st ++ [dp];
        last_pupil_left := None;
        last_pupil_right := None;
        last_time := timestamp dp |}.

Definition read_all_data (rows : list (gmap string string))
  : result (list Datapoint) :=
  st ← foldM step init_state rows; Ok (all_data st).

(** The validity test of the tracker on the row's two validity codes (the
    expression kept as a comment next to ["is_valid": True]); a missing
    column counts as an invalid eye. *)
Definition eye_meets_threshold (row : gmap string string) (col : string)
  : bool :=
  match row !! col with
  | Some v => cast_int v <? 2
  | None => false
  end.

Definition some_eye_valid (row : gmap string string) : bool :=
  eye_meets_threshold row "ValidityRight"
  || eye_meets_threshold row "ValidityLeft".

(** The fields of a [Datapoint] that [read_all_data] fills in without
    looking at the row. *)
Definition constant_fields (dp : Datapoint) : Prop :=
  is_valid dp = true /\
  is_valid_blink dp = None /\
  pupilsize dp = get_pupil_size None None /\
  distance dp = get_distance None None.

End AllData.
End AllData.

(** ** Part III: participants *)

(** Python's [sorted(l, key=key)]: the stable ascending sort, given here by
    insertion from the right. *)
Section Sorted.
Context {A : Type} (key : A -> Z).

Fixpoint insert_by (x : A) (l : list A) : list A :=
  match l with
  | [] => [x]
  | y :: l' => if key x <=? key y then x :: l else y :: insert_by x l'
  end.

Fixpoint sorted (l : list A) : list A :=
  match l with
  | [] => []
  | x :: l' => insert_by x (sorted l')
  end.

Definition key_le (x y : A) : Prop := key x <= key y.

(** The elements of [l] whose key is [k], in the order of [l]. *)
Definition with_key (k : Z) (l : list A) : list A :=
  List.filter (fun x => key x =? k) l.

End Sorted.

(** What [BasicParticipant.py] uses of [EMDAT_core], [EMDAT_eyetracker],
    [params] and [os.path]. *)
Class EMDAT_core : Type := {
  Recording : Type;
  Segment : Type;
  Scene : Type;
  AOI : Type;
  (** The scene list returned by [partition]. *)
  SceneList : Type;
  (** The rest pupil sizes of one user. *)
  RestPupil : Type;
  MediaOffset : Type;
  (** [params.EYETRACKERTYPE] and [params.MEDIA_OFFSET]. *)
  EYETRACKERTYPE : string;
  MEDIA_OFFSET : MediaOffset;
  (** [Participant.__init__(self, pid, eventfile, datafile, fixfile, saccfile,
      segfile, log_time_offset, aoifile, prune_length, require_valid_segs,
      auto_partition_low_quality_segments, rpsdata)]. *)
  Participant_init :
    string -> option string -> string -> string -> option string -> string ->
    option Z -> option string -> option Z -> bool -> bool ->
    option RestPupil -> result unit;
  (** [TobiiV2Recording(datafile, fixfile, event_file, media_offset)]. *)
  TobiiV2Recording :
    string -> string -> option string -> MediaOffset -> result Recording;
  (** [TobiiV3Recording(datafile, fixfile, saccade_file, event_file,
      media_offset)], and the same for SMI. *)
  TobiiV3Recording :
    string -> string -> option string -> option string -> MediaOffset ->
    result Recording;
  SMIRecording :
    string -> string -> option string -> option string -> MediaOffset ->
    result Recording;
  (** [partition(segfile)]: the scene list and the number of segments. *)
  partition : string -> result (SceneList * Z);
  read_aois : string -> result (list AOI);
  (** [rec.process_rec(scenelist, aoilist, prune_length, require_valid_segs,
      auto_partition_low_quality_segments, rpsdata, export_pupilinfo)]. *)
  process_rec :
    Recording -> SceneList -> option (list AOI) -> option Z -> bool -> bool ->
    option RestPupil -> bool -> result (list Segment * list Scene);
  (** [x.start] of a segment. *)
  start : Segment -> Z;
  (** [Scene(scid, [], rec.all_data, rec.fix_data, saccade_data=rec.sac_data,
      event_data=rec.event_data, Segments, aoilist, prune_length,
      require_valid, export_pupilinfo)]; the four data lists are given by the
      recording they are taken from. *)
  Scene_init :
    string -> Recording -> list Segment -> option (list AOI) -> option Z ->
    bool -> bool -> result Scene;
  (** The scene after [sc.clean_memory()]. *)
  clean_memory : Scene -> Scene;
  (** [read_rest_pupil_sizes(rpsfile)]: [None], or a dictionary by user. *)
  read_rest_pupil_sizes :
    option string -> result (option (gmap string RestPupil));
  (** [os.path.join] and [os.path.exists]. *)
  path_join : string -> string -> string;
  path_exists : string -> bool
}.

Section Participants.
Context `{C : EMDAT_core}.

(** The arguments of [BasicParticipant.__init__]. *)
Record CtorArgs : Type := {
  pid : string;
  eventfile : option string;
  datafile : string;
  fixfile : string;
  saccfile : option string;
  segfile : string;
  log_time_offset : option Z;
  aoifile : option string;
  prune_length : option Z;
  require_valid_segs : bool;
  auto_partition_low_quality_segments : bool;
  rpsdata : option RestPupil;
  export_pupilinfo : bool
}.

(** The attributes [BasicParticipant.__init__] sets. *)
Record BasicParticipant : Type := {
  features : gmap string Z;
  numofsegments : Z;
  segments : list Segment;
  scenes : list Scene;
  whole_scene : Scene
}.

(** The recording chosen by [params.EYETRACKERTYPE]. *)
Definition make_recording (a : CtorArgs) : result Recording :=
  if String.eqb EYETRACKERTYPE "TobiiV2" then
    TobiiV2Recording (datafile a) (fixfile a) (eventfile a) MEDIA_OFFSET
  else if String.eqb EYETRACKERTYPE "TobiiV3" then
    TobiiV3Recording (datafile a) (fixfile a) (saccfile a) (eventfile a)
      MEDIA_OFFSET
  else if String.eqb EYETRACKERTYPE "SMI" then
    SMIRecording (datafile a) (fixfile a) (saccfile a) (eventfile a)
      MEDIA_OFFSET
  else Raise (Exception "Unknown eye tracker type.").

(** The call of the base constructor [Participant.__init__]. *)
Definition base_init (a : CtorArgs) : result unit :=
  Participant_init (pid a) (eventfile a) (datafile a) (fixfile a)
    (saccfile a) (segfile a) (log_time_offset a) (aoifile a)
    (prune_length a) (require_valid_segs a)
    (auto_partition_low_quality_segments a) (rpsdata a).

(** [BasicParticipant.__init__].  The closing [rec.clean_memory()] acts on
    the recording, which the constructor does not keep. *)
Definition BasicParticipant_init (a : CtorArgs) : result BasicParticipant :=
  _ ← base_init a;
  rec ← make_recording a;
  '(scenelist, n) ← partition (segfile a);
  if n =? 0 then Raise (Exception "No segments found.")
  else
    aois ← match aoifile a with
           | Some f => l ← read_aois f; Ok (Some l)
           | None => Ok None
           end;
    '(segs, scs) ← process_rec rec scenelist aois (prune_length a)
                     (require_valid_segs a)
                     (auto_partition_low_quality_segments a) (rpsdata a)
                     (export_pupilinfo a);
    (* Sort segments by their starting timestamp *)
    let all_segs := sorted start segs in
    ws ← Scene_init (pid a ++ "_allsc")%string rec all_segs aois
           (prune_length a) (require_valid_segs a) (export_pupilinfo a);
    let scs' := ws :: scs in
    Ok {| features := {[ "numofsegments" := n ]};
          numofsegments := n;
          segments := segs;
          scenes := clean_memory <$> scs';
          whole_scene := clean_memory ws |}.

(** What a run of the batch leaves behind besides its return value: the
    lines written by [log_to_file], the warnings, and (as a ghost record)
    the arguments of every [BasicParticipant] constructor call. *)
Record World : Type := {
  log_file : list string;
  warnings : list string;
  ctor_calls : list CtorArgs
}.

Definition empty_world : World :=
  {| log_file := []; warnings := []; ctor_calls := [] |}.

(** The five file names of a recording, by tracker type:
    all, fix, eve, sac, seg. *)
Definition recording_files (datadir rec : string)
  : option (string * string * option string * option string * string) :=
  if String.eqb EYETRACKERTYPE "TobiiV2" then
    Some (path_join datadir (rec ++ "-All-Data.tsv")%string,
          path_join datadir (rec ++ "-Fixation-Data.tsv")%string,
          None, None,
          path_join datadir (rec ++ ".seg")%string)
  else if String.eqb EYETRACKERTYPE "TobiiV3" then
    Some (path_join datadir (rec ++ "-All-Data.tsv")%string,
          path_join datadir (rec ++ "-All-Data.tsv")%string,
          None,
          Some (path_join datadir (rec ++ "-All-Data.tsv")%string),
          path_join datadir (rec ++ ".seg")%string)
  else if String.eqb EYETRACKERTYPE "SMI" then
    Some ((datadir ++ "/SMI_Sample_" ++ rec ++ "_Samples.txt")%string,
          (datadir ++ "/SMI_Sample_" ++ rec ++ "_Events.txt")%string,
          Some (datadir ++ "/SMI_Sample_" ++ rec ++ "_Events.txt")%string,
          Some (datadir ++ "/SMI_Sample_" ++ rec ++ "_Events.txt")%string,
          (datadir ++ "/SMI_Sample_" ++ rec ++ ".seg")%string)
  else None.

(** [allfile], the sample file among the five. *)
Definition allfile
           (files : string * string * option string * option string * string)
  : string := files.1.1.1.1.

(** The branch taken when the sample file is missing. *)
Definition log_missing (pid : string) (w : World) : World :=
  {| log_file :=
       log_file w ++
       [("Error reading participant files for: " ++ pid
         ++ " FILE NOT FOUND" ++ String "010"%char "")%string];
     warnings :=
       warnings w ++ [("Error reading participant files for: " ++ pid)%string];
     ctor_calls := ctor_calls w |}.

Definition record_call (a : CtorArgs) (w : World) : World :=
  {| log_file := log_file w; warnings := warnings w;
     ctor_calls := ctor_calls w ++ [a] |}.

Section Batch.
Variables (datadir : string) (prune : option Z) (aoi : option string)
          (require_valid auto_partition : bool)
          (rps : option (gmap string RestPupil)).

(** [rpsdata[pid]] when [rpsdata] is not [None]. *)
Definition current_rps (pid : string) : result (option RestPupil) :=
  match rps with
  | Some d => match d !! pid with
              | Some v => Ok (Some v)
              | None => Raise (KeyError pid)
              end
  | None => Ok None
  end.

(** The arguments of the call [BasicParticipant(rec, evefile, allfile,
    fixfile, sacfile, segfile, log_time_offset=offset, ...)]. *)
Definition batch_args (rec : string) (offset : Z)
           (currpsdata : option RestPupil)
           (files : string * string * option string * option string * string)
  : CtorArgs :=
  let '(allfile, fixfile, evefile, sacfile, segfile) := files in
  {| pid := rec; eventfile := evefile;
     datafile := allfile; fixfile := fixfile;
     saccfile := sacfile; segfile := segfile;
     log_time_offset := Some offset; aoifile := aoi;
     prune_length := prune;
     require_valid_segs := require_valid;
     auto_partition_low_quality_segments := auto_partition;
     rpsdata := currpsdata;
     export_pupilinfo := true |}.

(** One iteration of [for rec, pid, offset in zip(...)]. *)
Definition batch_step (participants : list BasicParticipant) (w : World)
           (x : string * string * Z) : World * result (list BasicParticipant) :=
  let '(rec, pid, offset) := x in
  match current_rps pid with
  | Raise e => (w, Raise e)
  | Ok currpsdata =>
      match recording_files datadir rec with
      | None => (w, Raise (UnboundLocalError "allfile"))
      | Some files =>
          if path_exists (allfile files) then
            let a := batch_args rec offset currpsdata files in
            match BasicParticipant_init a with
            | Ok p => (record_call a w, Ok (participants ++ [p]))
            | Raise e => (record_call a w, Raise e)
            end
          else (log_missing pid w, Ok participants)
      end
  end.

Fixpoint batch_loop (xs : list (string * string * Z))
         (participants : list BasicParticipant) (w : World)
  : World * result (list BasicParticipant) :=
  match xs with
  | [] => (w, Ok participants)
  | x :: xs' =>
      match batch_step participants w x with
      | (w', Ok participants') => batch_loop xs' participants' w'
      | (w', Raise e) => (w', Raise e)
      end
  end.
End Batch.

(** [zip(user_list, pids, log_time_offsets)]. *)
Fixpoint zip3 (us ps : list string) (os : list Z)
  : list (string * string * Z) :=
  match us, ps, os with
  | u :: us', p :: ps', o :: os' => (u, p, o) :: zip3 us' ps' os'
  | _, _, _ => []
  end.

(** [if log_time_offsets is None: log_time_offsets = [1] * len(pids)]. *)
Definition offsets_or_default (log_time_offsets : option (list Z))
           (pids : list string) : list Z :=
  match log_time_offsets with
  | None => replicate (length pids) 1
  | Some l => l
  end.

(** The unit of an offset.  The one place of the source that gives it is
    the comment on the default, "setting the default offset which is 1 sec":
    offsets are counted in seconds, and [offset_ms] is an offset in
    milliseconds. *)
Definition offset_ms (offset : Z) : Z := 1000 * offset.

Definition read_participants_Basic
           (datadir : string) (user_list pids : list string)
           (prune_length : option Z) (aoifile : option string)
           (log_time_offsets : option (list Z))
           (require_valid_segs auto_partition_low_quality_segments : bool)
           (rpsfile : option string) (w : World)
  : World * result (list BasicParticipant) :=
  let log_time_offsets := offsets_or_default log_time_offsets pids in
  match read_rest_pupil_sizes rpsfile with
  | Raise e => (w, Raise e)
  | Ok rpsdata =>
      batch_loop datadir prune_length aoifile require_valid_segs
        auto_partition_low_quality_segments rpsdata
        (zip3 user_list pids log_time_offsets) [] w
  end.

End Participants.

(** ** An instance of the interface for examples

    Integers are read by [int_literal], with -1 for what is not a literal;
    floats are kept symbolic: a literal, or the call that produced them. *)

Inductive sym_float : Type :=
| FloatLit (z : Z)
| SaccadeDistance (v : list (Z * Z * Z))
| FloatDiv (d : sym_float) (n : Z)
| PupilSize (left right : bool)
| PupilVelocity (last_left last_right left right : bool) (dt : Z)
| EyeDistance (left right : bool).

(** Whether a value is available (is not [None]). *)
Definition available {A} (o : option A) : bool :=
  match o with Some _ => true | None => false end.

Definition example_utils (threshold : Q) : EMDAT_utils := {|
  cast_int := fun s => default (-1) (int_literal s);
  Float := sym_float;
  get_saccade_distance := SaccadeDistance;
  float_div := FloatDiv;
  VALID_SAMPLES_PROP_SACCADE := threshold
|}.

(** A sample of the screen recording with both eyes valid (validity code 0),
    gaze coordinates, and no fixation-point estimate. *)
Definition valid_row (kind index time x y : string) : Row := {|
  MediaName := "Screen Recordings (1)";
  EyeTrackerTimestamp := "1";
  GazeEventType := kind;
  SaccadeIndex := index;
  ValidityLeft := "0";
  ValidityRight := "0";
  GazePointX := x;
  GazePointY := y;
  RecordingTimestamp := time;
  FixationPointX := "";
  FixationPointY := ""
|}.

(** A sample of the screen recording with both eyes lost (validity code 4)
    and no coordinates at all. *)
Definition lost_row (kind index time : string) : Row := {|
  MediaName := "Screen Recordings (1)";
  EyeTrackerTimestamp := "1";
  GazeEventType := kind;
  SaccadeIndex := index;
  ValidityLeft := "4";
  ValidityRight := "4";
  GazePointX := "";
  GazePointY := "";
  RecordingTimestamp := time;
  FixationPointX := "";
  FixationPointY := ""
|}.

(** Fixation, Fixation, Saccade, Saccade, Fixation at 0, 10, 20, 30, 40 ms. *)
Definition stream_FFSSF : list Row :=
  [ valid_row "Fixation" "" "0" "100" "100";
    valid_row "Fixation" "" "10" "101" "100";
    valid_row "Saccade" "1" "20" "150" "120";
    valid_row "Saccade" "1" "30" "220" "160";
    valid_row "Fixation" "" "40" "300" "200" ].

(** A valid sample of the given kind stamped 10 ms at (100, 100). *)
Definition same_time_row (kind : string) : Row := {|
  MediaName := "Screen Recordings (1)";
  EyeTrackerTimestamp := "1";
  GazeEventType := kind;
  SaccadeIndex := "1";
  ValidityLeft := "0";
  ValidityRight := "0";
  GazePointX := "100";
  GazePointY := "100";
  RecordingTimestamp := "10";
  FixationPointX := "";
  FixationPointY := ""
|}.

(** Fixation, Saccade, Fixation, all stamped 10 ms. *)
Definition stream_same_time : list Row :=
  [ valid_row "Fixation" "" "10" "100" "100";
    valid_row "Saccade" "1" "10" "150" "120";
    valid_row "Fixation" "" "10" "300" "200" ].

(** A window of four samples of which only the one before the saccade is
    valid. *)
Definition stream_low_quality : list Row :=
  [ valid_row "Fixation" "" "0" "100" "100";
    lost_row "Saccade" "1" "10";
    lost_row "Saccade" "1" "20";
    lost_row "Fixation" "" "30" ].


(** The local variables after the first two rows of [stream_same_time] and
    after [stream_FFSSF], with the threshold 0.6. *)
Definition state_before_closing : @state (example_utils (6 # 10)) :=
  Eval vm_compute in
    match @run (example_utils (6 # 10)) init_state (take 2 stream_same_time) with
    | Ok st => st
    | Raise _ => init_state
    end.

Definition state_after_FFSSF : @state (example_utils (6 # 10)) :=
  Eval vm_compute in
    match @run (example_utils (6 # 10)) init_state stream_FFSSF with
    | Ok st => st
    | Raise _ => init_state
    end.

(** The Saccade read from [stream_FFSSF]. *)
Definition saccade_FFSSF : @Saccade (example_utils (6 # 10)) :=
  @Build_Saccade (example_utils (6 # 10))
    (* saccadeindex *) 1
    (* timestamp *) 10
    (* saccadeduration *) 30
    (* start point *) 101 100
    (* end point *) 300 200
    (* saccadedistance *)
    (SaccadeDistance
       [(10, 101, 100); (20, 150, 120); (30, 220, 160); (40, 300, 200)])
    (* saccadespeed *)
    (FloatDiv
       (SaccadeDistance
          [(10, 101, 100); (20, 150, 120); (30, 220, 160); (40, 300, 200)])
       30)
    (* saccadeacceleration *) (-1)
    (* saccadequality *) (4 # 4).

(** Floats are read from integer literals only. *)
Definition sym_int (f : sym_float) : result Z :=
  match f with
  | FloatLit z => Ok z
  | _ => Raise ValueError
  end.

Definition example_pupil (threshold : Q)
  : @EMDAT_pupil (example_utils threshold) :=
  @Build_EMDAT_pupil (example_utils threshold)
    (* float_of_str *) (fun s => FloatLit <$> int_literal s)
    (* int_of_float *) sym_int
    (* get_pupil_size *) (fun l r => PupilSize (available l) (available r))
    (* get_pupil_velocity *)
    (fun ll lr l r dt =>
       PupilVelocity (available ll) (available lr) (available l) (available r) dt)
    (* get_distance *) (fun l r => EyeDistance (available l) (available r)).

(** A row of an All-Data file whose two eyes both carry the validity code 4
    (not found) and no pupil value. *)
Definition row_eyes_lost : gmap string string :=
  {[ "RecordingTimestamp" := "100"; "avg_x" := "512";
     "ValidityLeft" := "4"; "ValidityRight" := "4";
     "PupilLeft" := ""; "PupilRight" := "" ]}.

(** The [Datapoint] read from [row_eyes_lost] at the start of a file. *)
Definition datapoint_eyes_lost : @AllData.Datapoint (example_utils (6 # 10)) :=
  @AllData.Build_Datapoint (example_utils (6 # 10))
    (* timestamp *) 100
    (* pupilsize *) (PupilSize false false)
    (* pupilvelocity *) (PupilVelocity false false false false 101)
    (* distance *) (EyeDistance false false)
    (* is_valid *) true
    (* is_valid_blink *) None
    (* stimuliname *) None
    (* fixationindex *) None
    (* gazepointxleft *) (FloatLit 512).

(** A small world of files: a recording is its sample file name, a segment
    a name with its start, a scene a name with its segments.  [files] are
    the paths that exist, [unreadable] the sample files whose parse fails,
    [segs_of] the segments of each segment file. *)
Definition example_core (tracker : string) (files unreadable : list string)
           (segs_of : string -> list (string * Z))
           (rps : option (gmap string Z)) : EMDAT_core := {|
  Recording := string;
  Segment := string * Z;
  Scene := string * list (string * Z);
  AOI := string;
  SceneList := list (string * Z);
  RestPupil := Z;
  MediaOffset := Z * Z;
  EYETRACKERTYPE := tracker;
  MEDIA_OFFSET := (0, 0);
  Participant_init := fun _ _ _ _ _ _ _ _ _ _ _ _ => Ok ();
  TobiiV2Recording := fun d _ _ _ =>
    if existsb (String.eqb d) unreadable then Raise ValueError else Ok d;
  TobiiV3Recording := fun d _ _ _ _ =>
    if existsb (String.eqb d) unreadable then Raise ValueError else Ok d;
  SMIRecording := fun d _ _ _ _ =>
    if existsb (String.eqb d) unreadable then Raise ValueError else Ok d;
  partition := fun f => Ok (segs_of f, Z.of_nat (length (segs_of f)));
  read_aois := fun _ => Ok [];
  process_rec := fun _ scl _ _ _ _ _ _ => Ok (scl, [("scene", scl)]);
  start := snd;
  Scene_init := fun scid _ segs _ _ _ _ => Ok (scid, segs);
  clean_memory := fun sc => sc;
  read_rest_pupil_sizes := fun _ => Ok rps;
  path_join := fun a b => (a ++ "/" ++ b)%string;
  path_exists := fun p => existsb (String.eqb p) files
|}.

(** Three segments, two of which start together. *)
Definition example_segments (f : string) : list (string * Z) :=
  if String.eqb f "data/p2.seg" then []
  else [("c", 2000); ("a", 0); ("b", 2000); ("d", 1000)].

(** Recordings [p1], [p2] and [p3]: the sample file of [p1] exists but cannot
    be parsed, that of [p2] exists and its segment file is empty, that of [p3]
    exists, that of [p4] does not. *)
Definition example_world : EMDAT_core :=
  example_core "TobiiV2"
    ["data/p1-All-Data.tsv"; "data/p2-All-Data.tsv"; "data/p3-All-Data.tsv"]
    ["data/p1-All-Data.tsv"] example_segments None.

(** The same world with a rest-pupil file that knows [p3] only. *)
Definition example_world_rps : EMDAT_core :=
  example_core "TobiiV2"
    ["data/p1-All-Data.tsv"; "data/p2-All-Data.tsv"; "data/p3-All-Data.tsv"]
    ["data/p1-All-Data.tsv"] example_segments (Some {[ "p3" := 4 ]}).

Definition example_args (rec : string) : @CtorArgs example_world := {|
  pid := rec;
  eventfile := None;
  datafile := ("data/" ++ rec ++ "-All-Data.tsv")%string;
  fixfile := ("data/" ++ rec ++ "-Fixation-Data.tsv")%string;
  saccfile := None;
  segfile := ("data/" ++ rec ++ ".seg")%string;
  log_time_offset := Some 1;
  aoifile := None;
  prune_length := None;
  require_valid_segs := true;
  auto_partition_low_quality_segments := false;
  rpsdata := None;
  export_pupilinfo := true
|}.

(** The participant built for [p3]. *)
Definition example_participant : @BasicParticipant example_world :=
  @Build_BasicParticipant example_world
    (* features *) {[ "numofsegments" := 4 ]}
    (* numofsegments *) 4
    (* segments *) (example_segments "data/p3.seg")
    (* scenes *)
    [("p3_allsc", [("a", 0); ("d", 1000); ("c", 2000); ("b", 2000)]);
     ("scene", example_segments "data/p3.seg")]
    (* whole_scene *)
    ("p3_allsc", [("a", 0); ("d", 1000); ("c", 2000); ("b", 2000)]).

(** ** Part IV: the fixation file *)

(** [for row in reader: all.append(item(row))], from the empty list. *)
Definition append_each {A B : Type} (item : A -> result B) (rows : list A)
  : result (list B) :=
  foldM (fun all row => x ← item row; Ok (all ++ [x])) [] rows.

Module Fixations.
Section Fixations.
Context `{P : EMDAT_pupil}.

(** The dictionary [data] handed to the [Fixation] constructor. *)
Record Fixation : Type := {
  fixationindex : Z;
  timestamp : Z;
  fixationduration : Z;
  fixationpointx : Z;
  fixationpointy : Z
}.

(** [int(float(row[col]))]. *)
Definition int_column (row : gmap string string) (col : string) : result Z :=
  s ← AllData.getitem row col; f ← AllData.float s; int_of_float f.

(** The [Fixation] built for one row. *)
Definition fixation_of (row : gmap string string) : result Fixation :=
  idx ← AllData.getitem row "Unnamed: 0";
  t ← int_column row "starttime";
  d ← int_column row "duration";
  x ← int_column row "endx";
  y ← int_column row "endy";
  Ok {| fixationindex := cast_int idx;
        timestamp := t;
        fixationduration := d;
        fixationpointx := x;
        fixationpointy := y |}.

Definition read_fixation_data (rows : list (gmap string string))
  : result (list Fixation) :=
  append_each fixation_of rows.

End Fixations.
End Fixations.

(** ** Further notions about [read_saccade_data] *)

Section TobiiV2_notions.
Context `{U : EMDAT_utils}.

(** What holds of every Saccade the loop appends. *)
Definition emitted (s : Saccade) : Prop :=
  (VALID_SAMPLES_PROP_SACCADE <= saccadequality s)%Q /\
  (saccadequality s <= 1)%Q /\
  saccadeduration s <> 0.


End TobiiV2_notions.

(** ** Further notions about the row-wise parsers *)

Section Rows_notions.
Context `{P : EMDAT_pupil}.

(** The timestamp [read_all_data] holds in [last_time] when it reads the row
    of index [i]: -1 at the start, then the timestamp of the row before. *)
Definition previous_time (dps : list AllData.Datapoint) (i : nat) : Z :=
  match i with
  | O => -1
  | S j => from_option AllData.timestamp (-1) (dps !! j)
  end.

(** The row has all the columns of the list. *)
Definition has_columns (cols : list string) (row : gmap string string) : Prop :=
  Forall (fun c => is_Some (row !! c)) cols.

End Rows_notions.

(** ** Further notions about the batch *)

Section Batch_notions.
Context `{C : EMDAT_core}.

(** [params.EYETRACKERTYPE] is none of the three types the code knows. *)
Definition unknown_tracker : Prop :=
  EYETRACKERTYPE <> "TobiiV2" /\ EYETRACKERTYPE <> "TobiiV3" /\
  EYETRACKERTYPE <> "SMI".

(** What a constructor call is made for: the participant id and the log-time
    offset it is given. *)
Definition call_key (a : CtorArgs) : string * option Z :=
  (pid a, log_time_offset a).

(** What an iteration of the batch is made for: the recording and its
    offset. *)
Definition recording_key (x : string * string * Z) : string * option Z :=
  (x.1.1, Some x.2).

End Batch_notions.

(** ** Further examples *)


(** A second saccade after [stream_FFSSF]: two Saccade samples, the second
    one lost, then a Fixation sample. *)
Definition stream_more : list Row :=
  [ valid_row "Saccade" "2" "50" "350" "220";
    lost_row "Saccade" "2" "60";
    valid_row "Fixation" "" "70" "400" "240" ].

(** The Saccade read from [stream_more] after [stream_FFSSF]: 4 valid samples
    of 5. *)
Definition saccade_more : @Saccade (example_utils (6 # 10)) :=
  @Build_Saccade (example_utils (6 # 10))
    (* saccadeindex *) 2
    (* timestamp *) 40
    (* saccadeduration *) 30
    (* start point *) 300 200
    (* end point *) 400 240
    (* saccadedistance *)
    (SaccadeDistance [(40, 300, 200); (50, 350, 220); (70, 400, 240)])
    (* saccadespeed *)
    (FloatDiv
       (SaccadeDistance [(40, 300, 200); (50, 350, 220); (70, 400, 240)]) 30)
    (* saccadeacceleration *) (-1)
    (* saccadequality *) (3 # 4).

(** A second row of an All-Data file, 50 ms after [row_eyes_lost], and its
    [Datapoint]. *)
Definition row_later : gmap string string :=
  {[ "RecordingTimestamp" := "150"; "avg_x" := "520" ]}.

Definition datapoint_later : @AllData.Datapoint (example_utils (6 # 10)) :=
  @AllData.Build_Datapoint (example_utils (6 # 10))
    (* timestamp *) 150
    (* pupilsize *) (PupilSize false false)
    (* pupilvelocity *) (PupilVelocity false false false false 50)
    (* distance *) (EyeDistance false false)
    (* is_valid *) true
    (* is_valid_blink *) None
    (* stimuliname *) None
    (* fixationindex *) None
    (* gazepointxleft *) (FloatLit 520).

(** A row of an All-Data file without its timestamp column. *)
Definition row_no_timestamp : gmap string string := {[ "avg_x" := "512" ]}.

(** A row of a fixation file and its [Fixation]; the same row without its
    duration. *)
Definition fixation_row : gmap string string :=
  {[ "Unnamed: 0" := "7"; "starttime" := "100"; "duration" := "240";
     "endx" := "512"; "endy" := "384" ]}.

Definition fixation_example : @Fixations.Fixation :=
  Fixations.Build_Fixation 7 100 240 512 384.

Definition fixation_row_no_duration : gmap string string :=
  {[ "Unnamed: 0" := "8"; "starttime" := "400";
     "endx" := "500"; "endy" := "380" ]}.

(** The world of [example_world] with a tracker type the code does not
    know, and with segments that come in the order of their starts. *)
Definition example_world_unknown : EMDAT_core :=
  example_core "EyeLink"
    ["data/p1-All-Data.tsv"; "data/p2-All-Data.tsv"; "data/p3-All-Data.tsv"]
    ["data/p1-All-Data.tsv"] example_segments None.

Definition example_args_unknown (rec : string) : @CtorArgs example_world_unknown :=
  {|
    pid := rec;
    eventfile := None;
    datafile := ("data/" ++ rec ++ "-All-Data.tsv")%string;
    fixfile := ("data/" ++ rec ++ "-Fixation-Data.tsv")%string;
    saccfile := None;
    segfile := ("data/" ++ rec ++ ".seg")%string;
    log_time_offset := Some 1;
    aoifile := None;
    prune_length := None;
    require_valid_segs := true;
    auto_partition_low_quality_segments := false;
    rpsdata := None;
    export_pupilinfo := true
  |}.

Definition example_world_ordered : EMDAT_core :=
  example_core "TobiiV2" ["data/p3-All-Data.tsv"] []
    (fun _ => [("a", 0); ("b", 1000); ("c", 1000)]) None.

Definition example_args_ordered : @CtorArgs example_world_ordered := {|
  pid := "p3";
  eventfile := None;
  datafile := "data/p3-All-Data.tsv";
  fixfile := "data/p3-Fixation-Data.tsv";
  saccfile := None;
  segfile := "data/p3.seg";
  log_time_offset := Some 1;
  aoifile := None;
  prune_length := None;
  require_valid_segs := true;
  auto_partition_low_quality_segments := false;
  rpsdata := None;
  export_pupilinfo := true
|}.

Definition example_participant_ordered : @BasicParticipant example_world_ordered :=
  @Build_BasicParticipant example_world_ordered
    (* features *) {[ "numofsegments" := 3 ]}
    (* numofsegments *) 3
    (* segments *) [("a", 0); ("b", 1000); ("c", 1000)]
    (* scenes *)
    [("p3_allsc", [("a", 0); ("b", 1000); ("c", 1000)]);
     ("scene", [("a", 0); ("b", 1000); ("c", 1000)])]
    (* whole_scene *) ("p3_allsc", [("a", 0); ("b", 1000); ("c", 1000)]).

(** The world after the batch [p3], [p4], [p3]. *)
Definition world_after_batch : @World example_world :=
  record_call (example_args "p3")
    (log_missing "p4" (record_call (example_args "p3") empty_world)).

(** The Saccade-classified samples of the recording. *)
Definition saccade_samples (rows : list Row) : list Row :=
  List.filter (fun r => negb (skipped r) && is_saccade r) rows.

(** ** Part V: [read_saccade_data] on the rows as dictionaries

    The loop of Part I once more, on the dictionaries [csv.DictReader]
    yields, which map the names of the columns of the header to strings:
    every [row[...]] is a lookup that raises [KeyError] when the column is
    missing, made where the source makes it ([or] and [and] do not evaluate
    their second operand when the first decides, and the left operand of a
    subtraction is evaluated before the right one).  The local variables are
    those of Part I. *)

Module Dict.
Section Dict.
Context `{U : EMDAT_utils}.

(** The eleven columns [read_saccade_data] reads. *)
Definition columns : list string :=
  [ "MediaName"; "EyeTrackerTimestamp"; "GazeEventType"; "SaccadeIndex";
    "ValidityLeft"; "ValidityRight"; "GazePointX (ADCSpx)";
    "GazePointY (ADCSpx)"; "RecordingTimestamp"; "FixationPointX (MCSpx)";
    "FixationPointY (MCSpx)" ].

(** The row has the eleven columns. *)
Definition complete (row : gmap string string) : Prop :=
  Forall (fun c => is_Some (row !! c)) columns.

(** The value of a column, empty when the column is missing. *)
Definition column (row : gmap string string) (c : string) : string :=
  default EmptyString (row !! c).

(** The dictionary of a record of the eleven columns. *)
Definition of_Row (r : Row) : gmap string string :=
  list_to_map
    [ ("MediaName", MediaName r);
      ("EyeTrackerTimestamp", EyeTrackerTimestamp r);
      ("GazeEventType", GazeEventType r);
      ("SaccadeIndex", SaccadeIndex r);
      ("ValidityLeft", ValidityLeft r);
      ("ValidityRight", ValidityRight r);
      ("GazePointX (ADCSpx)", GazePointX r);
      ("GazePointY (ADCSpx)", GazePointY r);
      ("RecordingTimestamp", RecordingTimestamp r);
      ("FixationPointX (MCSpx)", FixationPointX r);
      ("FixationPointY (MCSpx)", FixationPointY r) ].

(** The row as a record of its eleven columns. *)
Definition to_Row (row : gmap string string) : Row := {|
  MediaName := column row "MediaName";
  EyeTrackerTimestamp := column row "EyeTrackerTimestamp";
  GazeEventType := column row "GazeEventType";
  SaccadeIndex := column row "SaccadeIndex";
  ValidityLeft := column row "ValidityLeft";
  ValidityRight := column row "ValidityRight";
  GazePointX := column row "GazePointX (ADCSpx)";
  GazePointY := column row "GazePointY (ADCSpx)";
  RecordingTimestamp := column row "RecordingTimestamp";
  FixationPointX := column row "FixationPointX (MCSpx)";
  FixationPointY := column row "FixationPointY (MCSpx)"
|}.

(** [row["MediaName"] != 'Screen Recordings (1)' or not
    row["EyeTrackerTimestamp"]]. *)
Definition skipped (row : gmap string string) : result bool :=
  media ← AllData.getitem row "MediaName";
  if negb (String.eqb media "Screen Recordings (1)") then Ok true
  else
    ts ← AllData.getitem row "EyeTrackerTimestamp";
    Ok (negb (truthy ts)).

(** [cast_int(row["ValidityLeft"]) < 2 or cast_int(row["ValidityRight"]) < 2]. *)
Definition eyes_valid (row : gmap string string) : result bool :=
  l ← AllData.getitem row "ValidityLeft";
  if cast_int l <? 2 then Ok true
  else
    r ← AllData.getitem row "ValidityRight";
    Ok (cast_int r <? 2).

(** [row["GazePointX (ADCSpx)"] and row["GazePointY (ADCSpx)"]]. *)
Definition has_gaze (row : gmap string string) : result bool :=
  x ← AllData.getitem row "GazePointX (ADCSpx)";
  if truthy x then
    y ← AllData.getitem row "GazePointY (ADCSpx)";
    Ok (truthy y)
  else Ok false.

(** [row["FixationPointX (MCSpx)"] and row["FixationPointY (MCSpx)"]]. *)
Definition has_fixation_point (row : gmap string string) : result bool :=
  x ← AllData.getitem row "FixationPointX (MCSpx)";
  if truthy x then
    y ← AllData.getitem row "FixationPointY (MCSpx)";
    Ok (truthy y)
  else Ok false.

(** The condition guarding every append of a gaze sample. *)
Definition valid_gaze (row : gmap string string) : result bool :=
  ev ← eyes_valid row;
  if (ev : bool) then has_gaze row else Ok false.

Definition gaze_sample (row : gmap string string) : result point :=
  t ← AllData.getitem row "RecordingTimestamp";
  x ← AllData.getitem row "GazePointX (ADCSpx)";
  y ← AllData.getitem row "GazePointY (ADCSpx)";
  Ok (cast_int t, cast_int x, cast_int y).

Definition fixation_sample (row : gmap string string) : result point :=
  t ← AllData.getitem row "RecordingTimestamp";
  x ← AllData.getitem row "FixationPointX (MCSpx)";
  y ← AllData.getitem row "FixationPointY (MCSpx)";
  Ok (cast_int t, cast_int x, cast_int y).

(** [row["GazeEventType"] == kind]. *)
Definition is_kind (row : gmap string string) (kind : string) : result bool :=
  g ← AllData.getitem row "GazeEventType";
  Ok (String.eqb g kind).

(** Branch [if in_fixation:]. *)
Definition step_in_fixation (st : state) (row : gmap string string)
  : result state :=
  fix_ ← is_kind row "Fixation";
  if (fix_ : bool) then
    Ok {| all_saccade := all_saccade st;
          in_saccade := in_saccade st;
          in_fixation := in_fixation st;
          last_gaze_coord := last_gaze_coord st;
          saccade_vect := saccade_vect st;
          saccade_duration := saccade_duration st;
          current_index := current_index st;
          nb_invalid_temp := 0;
          nb_valid_sample := nb_valid_sample st;
          nb_sample := nb_sample st;
          last_valid := last_valid st |}
  else
    sac ← is_kind row "Saccade";
    if (sac : bool) then
      (* new saccade *)
      index ← AllData.getitem row "SaccadeIndex";
      let vect0 := [last_gaze_coord st] in
      let nv0 := 0 in
      valid ← valid_gaze row;
      '(vect1, nv1) ←
        (if (valid : bool) then p ← gaze_sample row; Ok (vect0 ++ [p], nv0 + 1)
         else Ok (vect0, nv0));
      let nv2 := if last_valid st then nv1 + 1 else nv1 in
      let ns := 2 + nb_invalid_temp st in
      Ok {| all_saccade := all_saccade st;
            in_saccade := true;
            in_fixation := false;
            last_gaze_coord := last_gaze_coord st;
            saccade_vect := vect1;
            saccade_duration := saccade_duration st;
            current_index := IdxStr index;
            nb_invalid_temp := 0;
            nb_valid_sample := nv2;
            nb_sample := ns;
            last_valid := last_valid st |}
    else
      (* unclassified gaze samples *)
      Ok {| all_saccade := all_saccade st;
            in_saccade := in_saccade st;
            in_fixation := in_fixation st;
            last_gaze_coord := last_gaze_coord st;
            saccade_vect := saccade_vect st;
            saccade_duration := saccade_duration st;
            current_index := current_index st;
            nb_invalid_temp := nb_invalid_temp st + 1;
            nb_valid_sample := nb_valid_sample st;
            nb_sample := nb_sample st;
            last_valid := last_valid st |}.

(** The window and the two counters at the moment [rate_valid_sample] is
    computed, when the row closes the current saccade. *)
Definition closing_window (st : state) (row : gmap string string)
  : result (list point * Z * Z) :=
  valid ← valid_gaze row;
  '(vect1, nv1) ←
    (if (valid : bool) then
       p ← gaze_sample row;
       Ok (saccade_vect st ++ [p], nb_valid_sample st + 1)
     else
       fp ← has_fixation_point row;
       if (fp : bool) then
         p ← fixation_sample row;
         Ok (saccade_vect st ++ [p], nb_valid_sample st + 1)
       else Ok (saccade_vect st, nb_valid_sample st));
  Ok (vect1, nv1, nb_sample st + 1).

(** Branch [elif in_saccade:]. *)
Definition step_in_saccade (st : state) (row : gmap string string)
  : result state :=
  fix_ ← is_kind row "Fixation";
  if (fix_ : bool) then
    (* end of last saccade *)
    '(vect1, nv1, ns1) ← closing_window st row;
    rate_valid_sample ← float_quot nv1 ns1;
    if Qle_bool VALID_SAMPLES_PROP_SACCADE rate_valid_sample then
      t ← AllData.getitem row "RecordingTimestamp";
      p0 ← first_point vect1;
      let duration := cast_int t - pt_time p0 in
      let dist := get_saccade_distance vect1 in
      speed ← (if duration =? 0 then Raise ZeroDivisionError
               else Ok (float_div dist duration));
      pl ← last_point vect1;
      let data := {| saccadeindex := cast_int_val (current_index st);
                     timestamp := pt_time p0;
                     saccadeduration := duration;
                     saccadestartpointx := pt_x p0;
                     saccadestartpointy := pt_y p0;
                     saccadeendpointx := pt_x pl;
                     saccadeendpointy := pt_y pl;
                     saccadedistance := dist;
                     saccadespeed := speed;
                     saccadeacceleration := -1;
                     saccadequality := rate_valid_sample |} in
      Ok {| all_saccade := all_saccade st ++ [data];
            in_saccade := false;
            in_fixation := true;
            last_gaze_coord := last_gaze_coord st;
            saccade_vect := vect1;
            saccade_duration := duration;
            current_index := current_index st;
            nb_invalid_temp := 0;
            nb_valid_sample := 0;
            nb_sample := 0;
            last_valid := last_valid st |}
    else
      Ok {| all_saccade := all_saccade st;
            in_saccade := false;
            in_fixation := true;
            last_gaze_coord := last_gaze_coord st;
            saccade_vect := vect1;
            saccade_duration := saccade_duration st;
            current_index := current_index st;
            nb_invalid_temp := 0;
            nb_valid_sample := nv1;
            nb_sample := ns1;
            last_valid := last_valid st |}
  else
    sac ← is_kind row "Saccade";
    if (sac : bool) then
      valid ← valid_gaze row;
      '(vect1, nv1) ←
        (if (valid : bool) then
           p ← gaze_sample row;
           Ok (saccade_vect st ++ [p], nb_valid_sample st + 1)
         else Ok (saccade_vect st, nb_valid_sample st));
      Ok {| all_saccade := all_saccade st;
            in_saccade := in_saccade st;
            in_fixation := in_fixation st;
            last_gaze_coord := last_gaze_coord st;
            saccade_vect := vect1;
            saccade_duration := saccade_duration st;
            current_index := current_index st;
            nb_invalid_temp := 0;
            nb_valid_sample := nv1;
            nb_sample := nb_sample st + 1;
            last_valid := last_valid st |}
    else
      (* unclassified gaze samples *)
      Ok {| all_saccade := all_saccade st;
            in_saccade := in_saccade st;
            in_fixation := in_fixation st;
            last_gaze_coord := last_gaze_coord st;
            saccade_vect := saccade_vect st;
            saccade_duration := saccade_duration st;
            current_index := current_index st;
            nb_invalid_temp := 0;
            nb_valid_sample := nb_valid_sample st;
            nb_sample := nb_sample st + 1;
            last_valid := last_valid st |}.

(** Branch [else:], waiting for the first fixation. *)
Definition step_waiting (st : state) (row : gmap string string)
  : result state :=
  fix_ ← is_kind row "Fixation";
  if (fix_ : bool) then
    Ok {| all_saccade := all_saccade st;
          in_saccade := in_saccade st;
          in_fixation := true;
          last_gaze_coord := last_gaze_coord st;
          saccade_vect := saccade_vect st;
          saccade_duration := saccade_duration st;
          current_index := current_index st;
          nb_invalid_temp := nb_invalid_temp st;
          nb_valid_sample := nb_valid_sample st;
          nb_sample := nb_sample st;
          last_valid := last_valid st |}
  else Ok st.

(** The new [last_gaze_coord] and [last_valid] of the trailing update. *)
Definition new_last_gaze (st : state) (row : gmap string string)
  : result (point * bool) :=
  gaze ← has_gaze row;
  if (gaze : bool) then
    p ← gaze_sample row;
    valid ← eyes_valid row;
    Ok (p, valid)
  else
    fix_ ← is_kind row "Fixation";
    if (fix_ : bool) then
      fp ← has_fixation_point row;
      if (fp : bool) then p ← fixation_sample row; Ok (p, true)
      else Ok (last_gaze_coord st, last_valid st)
    else Ok (last_gaze_coord st, last_valid st).

Definition update_last_gaze (st : state) (row : gmap string string)
  : result state :=
  '(coord, valid) ← new_last_gaze st row;
  Ok {| all_saccade := all_saccade st;
        in_saccade := in_saccade st;
        in_fixation := in_fixation st;
        last_gaze_coord := coord;
        saccade_vect := saccade_vect st;
        saccade_duration := saccade_duration st;
        current_index := current_index st;
        nb_invalid_temp := nb_invalid_temp st;
        nb_valid_sample := nb_valid_sample st;
        nb_sample := nb_sample st;
        last_valid := valid |}.

(** One iteration of [for row in reader:]. *)
Definition step (st : state) (row : gmap string string) : result state :=
  skip ← skipped row;
  if (skip : bool) then Ok st
  else
    st' ← (if in_fixation st then step_in_fixation st row
           else if in_saccade st then step_in_saccade st row
           else step_waiting st row);
    update_last_gaze st' row.

Definition run (st : state) (rows : list (gmap string string)) : result state :=
  foldM step st rows.

Definition read_saccade_data (rows : list (gmap string string))
  : result (list Saccade) :=
  st ← run init_state rows; Ok (all_saccade st).

(** The row closes the saccade window of [st]. *)
Definition closes (st : state) (row : gmap string string) : Prop :=
  skipped row = Ok false /\ in_fixation st = false /\ in_saccade st = true /\
  is_kind row "Fixation" = Ok true.

(** A computation on a row and its value on the record of the row: they are
    the same, unless the computation raises the [KeyError] of one of the
    eleven columns, which the row does not have. *)
Definition agrees {A : Type} (row : gmap string string)
           (m r : result A) : Prop :=
  m = r \/
  exists c, In c columns /\ row !! c = None /\ m = Raise (KeyError c).

End Dict.
End Dict.

(** The stream of the five samples as dictionaries; the same stream from a
    file without the two columns of the fixation point, which the loop does
    not look up on samples with a valid gaze; and a Fixation and a Saccade
    sample from a file without the column "SaccadeIndex". *)
Definition dict_FFSSF : list (gmap string string) :=
  Dict.of_Row <$> stream_FFSSF.

Definition dict_FFSSF_no_fixation_point : list (gmap string string) :=
  (fun row => delete "FixationPointX (MCSpx)"
                (delete "FixationPointY (MCSpx)" row)) <$> dict_FFSSF.




(** Membership in a list given in full. *)
Ltac in_columns := simpl; repeat (first [left; reflexivity | right]).

(** * Properties *)

(** ** The result monad *)

Lemma bind_Ok {A B} (m : result A) (f : A -> result B) (b : B) :
  (a ← m; f a) = Ok b -> exists a, m = Ok a /\ f a = Ok b.
Proof. destruct m as [a|e]; simpl; [eauto | discriminate]. Qed.

Lemma result_bind_Ok {A B} (a : A) (f : A -> result B) : (Ok a ≫= f) = f a.
Proof. reflexivity. Qed.

Lemma foldM_cons_Ok {A S} (body : S -> A -> result S) (st st' : S) (x : A)
      (xs : list A) :
  body st x = Ok st' -> foldM body st (x :: xs) = foldM body st' xs.
Proof. intros H; simpl; rewrite H; reflexivity. Qed.

Lemma foldM_app {A S} (body : S -> A -> result S) (st : S) (xs ys : list A) :
  foldM body st (xs ++ ys) = (st' ← foldM body st xs; foldM body st' ys).
Proof.
  revert st; induction xs as [|x xs IH]; intros st; simpl; [reflexivity|].
  destruct (body st x) as [st1|e]; simpl; [apply IH | reflexivity].
Qed.

Lemma foldM_invariant {A S} (body : S -> A -> result S) (I : S -> Prop) :
  (forall st x st', I st -> body st x = Ok st' -> I st') ->
  forall xs st st', I st -> foldM body st xs = Ok st' -> I st'.
Proof.
  intros Hstep xs; induction xs as [|x xs IH]; intros st st' Hst; simpl.
  - intros [= <-]; exact Hst.
  - intros H; apply bind_Ok in H as (st1 & H1 & H2); eauto.
Qed.

(** ** [read_saccade_data] *)

Section TobiiV2_facts.
Context `{U : EMDAT_utils}.

Lemma float_quot_Ok (a b : Z) :
  b <> 0 -> float_quot a b = Ok (inject_Z a / inject_Z b)%Q.
Proof. intros Hb; unfold float_quot. destruct (Z.eqb_spec b 0); [lia | reflexivity]. Qed.

Lemma quot_in_unit (a b : Z) :
  0 <= a <= b -> 0 < b ->
  (0 <= inject_Z a / inject_Z b)%Q /\ (inject_Z a / inject_Z b <= 1)%Q.
Proof.
  intros [Ha Hab] Hb.
  assert (Hb' : (0 < inject_Z b)%Q) by (rewrite (Zlt_Qlt 0 b) in Hb; exact Hb).
  split.
  - apply Qle_shift_div_l; [exact Hb'|]. rewrite Qmult_0_l.
    rewrite (Zle_Qle 0 a) in Ha; exact Ha.
  - apply Qle_shift_div_r; [exact Hb'|]. rewrite Qmult_1_l.
    rewrite (Zle_Qle a b) in Hab; exact Hab.
Qed.


Lemma update_last_gaze_invariant (st : state) (row : Row) :
  invariant st -> invariant (update_last_gaze st row).
Proof.
  intros [H1 H2 H3 H4 H5]; unfold update_last_gaze.
  destruct (if has_gaze row then _ else _) as [coord valid].
  constructor; simpl; assumption.
Qed.

(** The counters of a window that is being closed. *)
Lemma closing_window_counters (st : state) (row : Row) :
  invariant st -> in_saccade st = true ->
  forall v nv ns, closing_window st row = (v, nv, ns) ->
  0 <= nv <= ns /\ 3 <= ns /\ v <> [].
Proof.
  intros Hinv Hs v nv ns.
  destruct (inv_counters _ Hinv Hs) as [Hc Hn].
  pose proof (inv_window _ Hinv Hs) as Hw.
  unfold closing_window.
  destruct (valid_gaze row); [|destruct (has_fixation_point row)];
    intros [= <- <- <-]; (split; [lia|split; [lia|]]); try assumption;
    intros Happ; apply app_eq_nil in Happ as [_ ?]; discriminate.
Qed.

Lemma step_in_fixation_invariant (st st' : state) (row : Row) :
  invariant st -> in_fixation st = true ->
  step_in_fixation st row = Ok st' -> invariant st'.
Proof.
  intros Hinv Hf. pose proof (inv_exclusive _ Hinv Hf) as Hs.
  destruct Hinv as [H1 H2 H3 H4 H5]. unfold step_in_fixation.
  destruct (is_fixation row); [|destruct (is_saccade row)].
  - intros [= <-]; constructor; simpl; auto; lia.
  - destruct (valid_gaze row), (last_valid st); intros [= <-];
      constructor; simpl; auto; try discriminate; try lia.
  - intros [= <-]; constructor; simpl; auto; lia.
Qed.

Lemma step_in_saccade_invariant (st st' : state) (row : Row) :
  invariant st -> in_fixation st = false -> in_saccade st = true ->
  step_in_saccade st row = Ok st' -> invariant st'.
Proof.
  intros Hinv Hf Hs. unfold step_in_saccade.
  destruct (is_fixation row); [|destruct (is_saccade row)].
  - destruct (closing_window st row) as [[v nv] ns] eqn:Hw.
    destruct (closing_window_counters st row Hinv Hs _ _ _ Hw) as (Hc & Hn & Hv).
    rewrite float_quot_Ok by lia; simpl.
    destruct (quot_in_unit nv ns Hc ltac:(lia)) as [Hq0 Hq1].
    destruct Hinv as [H1 H2 H3 H4 H5].
    destruct (Qle_bool _ _).
    + intros H. apply bind_Ok in H as (p0 & _ & H).
      apply bind_Ok in H as (speed & _ & H).
      apply bind_Ok in H as (pl & _ & H).
      injection H as <-. constructor; simpl; try discriminate; try lia.
      apply Forall_app; split; [assumption|].
      constructor; [split; assumption | constructor].
    + intros [= <-]; constructor; simpl; auto; try discriminate; lia.
  - destruct (inv_counters _ Hinv Hs) as [Hc Hn].
    pose proof (inv_window _ Hinv Hs) as Hw.
    destruct Hinv as [H1 H2 H3 H4 H5].
    destruct (valid_gaze row); intros [= <-]; constructor; simpl; auto;
      try lia; try (intros _; lia).
    intros _ Happ; apply app_eq_nil in Happ as [_ ?]; discriminate.
  - destruct (inv_counters _ Hinv Hs) as [Hc Hn].
    destruct Hinv as [H1 H2 H3 H4 H5].
    intros [= <-]; constructor; simpl; auto; try lia; intros _; lia.
Qed.

Lemma step_waiting_invariant (st st' : state) (row : Row) :
  invariant st -> in_saccade st = false ->
  step_waiting st row = Ok st' -> invariant st'.
Proof.
  intros Hinv Hs. unfold step_waiting. destruct Hinv as [H1 H2 H3 H4 H5].
  destruct (is_fixation row); intros [= <-]; constructor; simpl; auto;
    rewrite Hs; discriminate.
Qed.

Lemma step_invariant (st : state) (row : Row) (st' : state) :
  invariant st -> step st row = Ok st' -> invariant st'.
Proof.
  intros Hinv. unfold step. destruct (skipped row); [intros [= <-]; exact Hinv|].
  intros H; apply bind_Ok in H as (st1 & H1 & [= <-]).
  apply update_last_gaze_invariant.
  destruct (in_fixation st) eqn:Hf; [|destruct (in_saccade st) eqn:Hs].
  - eapply step_in_fixation_invariant; eauto.
  - eapply step_in_saccade_invariant; eauto.
  - eapply step_waiting_invariant; eauto.
Qed.

Lemma init_state_invariant : invariant init_state.
Proof. constructor; simpl; try discriminate; try lia; constructor. Qed.

Lemma run_invariant (rows : list Row) (st : state) :
  run init_state rows = Ok st -> invariant st.
Proof.
  intros H. eapply (foldM_invariant step invariant); eauto using step_invariant.
  apply init_state_invariant.
Qed.

Lemma all_saccade_update_last_gaze (st : state) (row : Row) :
  all_saccade (update_last_gaze st row) = all_saccade st.
Proof.
  unfold update_last_gaze.
  destruct (if has_gaze row then _ else _) as [coord valid]; reflexivity.
Qed.

(** What closing a window does, by the quality of the window and, when the
    quality passes, by the duration. *)
Lemma step_close (st : state) (row : Row) (v : list point) (nv ns : Z) :
  closes st row -> closing_window st row = (v, nv, ns) -> ns <> 0 ->
  let q := (inject_Z nv / inject_Z ns)%Q in
  if Qle_bool VALID_SAMPLES_PROP_SACCADE q then
    forall p0, first_point v = Ok p0 ->
    if cast_int (RecordingTimestamp row) - pt_time p0 =? 0 then
      step st row = Raise ZeroDivisionError
    else
      exists st' s, step st row = Ok st' /\
        all_saccade st' = all_saccade st ++ [s] /\
        saccadequality s = q /\
        timestamp s = pt_time p0 /\
        saccadeduration s = cast_int (RecordingTimestamp row) - pt_time p0
  else
    exists st', step st row = Ok st' /\ all_saccade st' = all_saccade st.
Proof.
  intros (Hsk & Hf & Hs & Hfix) Hw Hns q.
  unfold step, step_in_saccade. rewrite Hsk, Hf, Hs, Hfix, Hw.
  rewrite float_quot_Ok by assumption. simpl. fold q.
  destruct (Qle_bool VALID_SAMPLES_PROP_SACCADE q).
  - intros p0 Hp0. rewrite Hp0. simpl.
    destruct (_ =? 0); [reflexivity|]. simpl.
    assert (Hl : exists pl, last_point v = Ok pl).
    { unfold last_point. destruct v as [|p v']; [discriminate|].
      destruct (last (p :: v')) eqn:E; [eauto|].
      apply last_None in E; discriminate. }
    destruct Hl as [pl ->]. simpl.
    eexists _, _. split; [reflexivity|].
    rewrite all_saccade_update_last_gaze. simpl. repeat split; reflexivity.
  - eexists. split; [reflexivity|].
    rewrite all_saccade_update_last_gaze. reflexivity.
Qed.

(** C9: every emitted Saccade has a quality in [0,1], the quality of a
    Saccade is the quotient of the two counters of its window, and whenever
    a window is closed the valid-sample counter is between 0 and the
    total-sample counter, which is positive, whatever the input stream. *)
Theorem saccade_quality_in_unit_interval (rows : list Row) (st : state) :
  run init_state rows = Ok st ->
  read_saccade_data rows = Ok (all_saccade st) /\
  Forall quality_in_unit (all_saccade st) /\
  forall row v nv ns,
    closes st row -> closing_window st row = (v, nv, ns) ->
    0 <= nv <= ns /\ 0 < ns /\
    forall st', step st row = Ok st' ->
      all_saccade st' = all_saccade st \/
      exists s, all_saccade st' = all_saccade st ++ [s] /\
                saccadequality s = (inject_Z nv / inject_Z ns)%Q /\
                quality_in_unit s.
Proof.
  intros Hrun. pose proof (run_invariant _ _ Hrun) as Hinv.
  split; [unfold read_saccade_data; rewrite Hrun; reflexivity|].
  split; [apply (inv_quality _ Hinv)|].
  intros row v nv ns Hcl Hw.
  assert (Hs : in_saccade st = true) by apply Hcl.
  destruct (closing_window_counters st row Hinv Hs _ _ _ Hw) as (Hc & Hn & Hv).
  split; [exact Hc|]. split; [lia|].
  intros st' Hstep.
  pose proof (step_close st row v nv ns Hcl Hw ltac:(lia)) as Hclose.
  simpl in Hclose. destruct (Qle_bool _ _).
  - destruct v as [|p0 v']; [contradiction|].
    specialize (Hclose p0 eq_refl).
    destruct (_ =? 0); [congruence|].
    destruct Hclose as (st1 & s & Hst1 & Hall & Hq & _).
    right. exists s. rewrite Hstep in Hst1; injection Hst1 as <-.
    split; [exact Hall|]. split; [exact Hq|].
    unfold quality_in_unit; rewrite Hq. apply quot_in_unit; lia.
  - destruct Hclose as (st1 & Hst1 & Hall).
    left. rewrite Hstep in Hst1; injection Hst1 as <-. exact Hall.
Qed.


(** C10: the speed is computed by an unguarded division by the duration.
    Whenever the threshold is at most 1 and some validity code [v] counts
    as valid, the stream Fixation, Saccade, Fixation of three valid samples
    that carry the same timestamp closes a window of quality 3/3, which
    passes the threshold, with a closing timestamp equal to the start of the
    window; the division raises and the parse fails. *)
Theorem zero_duration_division (v t x y : string) :
  (VALID_SAMPLES_PROP_SACCADE <= 1)%Q ->
  cast_int v < 2 -> x <> "" -> y <> "" ->
  let sample kind :=
    {| MediaName := "Screen Recordings (1)"; EyeTrackerTimestamp := "1";
       GazeEventType := kind; SaccadeIndex := "1";
       ValidityLeft := v; ValidityRight := v;
       GazePointX := x; GazePointY := y; RecordingTimestamp := t;
       FixationPointX := ""; FixationPointY := "" |} in
  exists st,
    run init_state [sample "Fixation"; sample "Saccade"] = Ok st /\
    closes st (sample "Fixation") /\
    closing_window st (sample "Fixation")
      = ([gaze_sample (sample "Fixation"); gaze_sample (sample "Saccade");
          gaze_sample (sample "Fixation")], 3, 3) /\
    Qle_bool VALID_SAMPLES_PROP_SACCADE (inject_Z 3 / inject_Z 3) = true /\
    cast_int (RecordingTimestamp (sample "Fixation"))
      - pt_time (gaze_sample (sample "Fixation")) = 0 /\
    step st (sample "Fixation") = Raise ZeroDivisionError /\
    read_saccade_data [sample "Fixation"; sample "Saccade"; sample "Fixation"]
      = Raise ZeroDivisionError.
Proof.
  intros Hthr Hv Hx Hy sample.
  assert (Hg : forall k, has_gaze (sample k) = true).
  { intros k. unfold has_gaze, truthy; simpl.
    apply String.eqb_neq in Hx, Hy. rewrite Hx, Hy. reflexivity. }
  assert (He : forall k, eyes_valid (sample k) = true).
  { intros k. unfold eyes_valid; simpl.
    destruct (Z.ltb_spec (cast_int v) 2); [reflexivity | lia]. }
  assert (Hq : Qle_bool VALID_SAMPLES_PROP_SACCADE (inject_Z 3 / inject_Z 3)
               = true).
  { apply Qle_bool_iff. eapply Qle_trans; [exact Hthr|]. discriminate. }
  assert (Hclose :
    forall st, in_fixation st = false -> in_saccade st = true ->
               nb_valid_sample st = 2 -> nb_sample st = 2 ->
               saccade_vect st
               = [gaze_sample (sample "Fixation"); gaze_sample (sample "Saccade")] ->
               step st (sample "Fixation") = Raise ZeroDivisionError).
  { intros st Hf Hs Hnv Hns Hvect.
    unfold step, step_in_saccade, closing_window, valid_gaze.
    rewrite Hf, Hs, Hnv, Hns, Hvect, Hg, He. cbn.
    change (float_quot (2 + 1) (2 + 1)) with (Ok (inject_Z 3 / inject_Z 3)%Q).
    rewrite result_bind_Ok, Hq, Z.sub_diag. reflexivity. }
  eexists. split.
  { unfold run, init_state.
    erewrite foldM_cons_Ok
      by (unfold step, step_waiting, update_last_gaze; rewrite !Hg, !He; cbn;
          reflexivity).
    erewrite foldM_cons_Ok
      by (unfold step, step_in_fixation, update_last_gaze, valid_gaze;
          rewrite !Hg, !He; cbn; reflexivity).
    reflexivity. }
  split; [repeat split|].
  split; [unfold closing_window, valid_gaze; rewrite Hg, He; reflexivity|].
  split; [exact Hq|].
  split; [cbn; apply Z.sub_diag|].
  split; [apply Hclose; reflexivity|].
  unfold read_saccade_data, run, init_state.
  erewrite foldM_cons_Ok
    by (unfold step, step_waiting, update_last_gaze; rewrite !Hg, !He; cbn;
        reflexivity).
  erewrite foldM_cons_Ok
    by (unfold step, step_in_fixation, update_last_gaze, valid_gaze;
        rewrite !Hg, !He; cbn; reflexivity).
  cbn [foldM]. rewrite Hclose by reflexivity. reflexivity.
Qed.
End TobiiV2_facts.

(** *** The examples *)

Lemma saccade_quality_witness :
  @run (example_utils (6 # 10)) init_state stream_FFSSF = Ok state_after_FFSSF /\
  Forall quality_in_unit (all_saccade state_after_FFSSF).
Proof.
  assert (H : @run (example_utils (6 # 10)) init_state stream_FFSSF
              = Ok state_after_FFSSF) by (vm_compute; reflexivity).
  split; [exact H|].
  apply (@saccade_quality_in_unit_interval (example_utils (6 # 10))
           stream_FFSSF state_after_FFSSF H).
Defined.



Lemma zero_duration_division_witness :
  (@VALID_SAMPLES_PROP_SACCADE (example_utils (6 # 10)) <= 1)%Q /\
  @cast_int (example_utils (6 # 10)) "0" < 2 /\
  @read_saccade_data (example_utils (6 # 10))
    [same_time_row "Fixation"; same_time_row "Saccade"; same_time_row "Fixation"]
  = Raise ZeroDivisionError.
Proof.
  assert (H1 : (@VALID_SAMPLES_PROP_SACCADE (example_utils (6 # 10)) <= 1)%Q)
    by discriminate.
  assert (H2 : @cast_int (example_utils (6 # 10)) "0" < 2) by reflexivity.
  assert (H3 : "100" <> "") by discriminate.
  split; [exact H1|]. split; [exact H2|].
  destruct (@zero_duration_division (example_utils (6 # 10))
              "0" "10" "100" "100" H1 H2 H3 H3)
    as (st & _ & _ & _ & _ & _ & _ & H).
  exact H.
Defined.

(** C4, at the input where the code departs from it: the window closed by the
    third row of [stream_same_time] has 3 valid samples of 3, which passes the
    threshold 0.6, yet no Saccade is appended: the division of the distance by
    the zero duration raises. *)
Theorem passing_window_not_appended :
  @run (example_utils (6 # 10)) init_state (take 2 stream_same_time)
    = Ok state_before_closing /\
  closes state_before_closing (valid_row "Fixation" "" "10" "300" "200") /\
  closing_window state_before_closing (valid_row "Fixation" "" "10" "300" "200")
    = ([(10, 100, 100); (10, 150, 120); (10, 300, 200)], 3, 3) /\
  Qle_bool (@VALID_SAMPLES_PROP_SACCADE (example_utils (6 # 10)))
           (inject_Z 3 / inject_Z 3) = true /\
  step state_before_closing (valid_row "Fixation" "" "10" "300" "200")
    = Raise ZeroDivisionError /\
  @read_saccade_data (example_utils (6 # 10)) stream_same_time
    = Raise ZeroDivisionError.
Proof.
  split; [vm_compute; reflexivity|].
  split; [repeat split; vm_compute; reflexivity|].
  repeat split; vm_compute; reflexivity.
Qed.

(** A window of 1 valid sample of 4 is below the threshold 0.6: nothing is
    appended and nothing is raised. *)
Lemma low_quality_window_dropped :
  @read_saccade_data (example_utils (6 # 10)) stream_low_quality = Ok [].
Proof. vm_compute; reflexivity. Qed.

(** ** [read_all_data] *)

Section AllData_facts.
Context `{P : EMDAT_pupil}.

Lemma datapoint_of_constant (st : AllData.state) (row : gmap string string)
      (dp : AllData.Datapoint) :
  AllData.datapoint_of st row = Ok dp -> AllData.constant_fields dp.
Proof.
  unfold AllData.datapoint_of. intros H.
  apply bind_Ok in H as (ts & _ & H). apply bind_Ok in H as (tf & _ & H).
  apply bind_Ok in H as (t & _ & H). apply bind_Ok in H as (ax & _ & H).
  apply bind_Ok in H as (gx & _ & H). injection H as <-.
  repeat split.
Qed.

Lemma all_data_run (rows : list (gmap string string)) :
  forall st st', foldM AllData.step st rows = Ok st' ->
  exists dps, AllData.all_data st' = AllData.all_data st ++ dps /\
              length dps = length rows /\ Forall AllData.constant_fields dps.
Proof.
  induction rows as [|row rows IH]; intros st st'; simpl.
  - intros [= <-]. exists []. rewrite app_nil_r. repeat split. constructor.
  - intros H. apply bind_Ok in H as (st1 & H1 & H2).
    unfold AllData.step in H1. apply bind_Ok in H1 as (dp & Hdp & [= <-]).
    destruct (IH _ _ H2) as (dps & Hall & Hlen & Hdps). simpl in Hall.
    exists (dp :: dps). rewrite Hall, <- app_assoc. simpl.
    repeat split; [lia|]. constructor; [|exact Hdps].
    eapply datapoint_of_constant; eassumption.
Qed.

(** C3 (amended): every row of an All-Data file that parses gives one
    [Datapoint]; its validity flag is true whatever the validity codes of
    the row, which are not read, its blink flag is unset, and its pupil size
    and eye distance are those the shared derivation gives when both eyes
    are unavailable, whatever the pupil columns of the row. *)
Theorem all_data_fields_constant (rows : list (gmap string string))
        (dps : list AllData.Datapoint) :
  AllData.read_all_data rows = Ok dps ->
  length dps = length rows /\ Forall AllData.constant_fields dps.
Proof.
  unfold AllData.read_all_data. intros H.
  apply bind_Ok in H as (st & Hrun & [= <-]).
  destruct (all_data_run rows _ _ Hrun) as (dps & Hall & Hlen & Hdps).
  simpl in Hall. rewrite Hall. split; assumption.
Qed.
End AllData_facts.

Lemma all_data_fields_constant_witness :
  @AllData.read_all_data _ (example_pupil (6 # 10)) [row_eyes_lost]
    = Ok [datapoint_eyes_lost] /\
  length [datapoint_eyes_lost] = length [row_eyes_lost] /\
  Forall (@AllData.constant_fields _ (example_pupil (6 # 10)))
         [datapoint_eyes_lost].
Proof.
  assert (H : @AllData.read_all_data _ (example_pupil (6 # 10)) [row_eyes_lost]
              = Ok [datapoint_eyes_lost]) by (vm_compute; reflexivity).
  split; [exact H|].
  exact (@all_data_fields_constant _ (example_pupil (6 # 10)) [row_eyes_lost]
           [datapoint_eyes_lost] H).
Defined.

(** C3, as stated, fails: a row whose two validity codes are 4, so that no
    eye meets the threshold, is parsed into a [Datapoint] flagged valid. *)
Lemma validity_flag_counterexample :
  @AllData.read_all_data _ (example_pupil (6 # 10)) [row_eyes_lost]
    = Ok [datapoint_eyes_lost] /\
  AllData.is_valid datapoint_eyes_lost = true /\
  @AllData.some_eye_valid (example_utils (6 # 10)) row_eyes_lost = false.
Proof.
  split; [vm_compute; reflexivity|]. split; vm_compute; reflexivity.
Qed.

(** ** [sorted] is a stable sort *)

Section Sorted_facts.
Context {A : Type} (key : A -> Z).

Lemma insert_by_Permutation (x : A) (l : list A) :
  Permutation (insert_by key x l) (x :: l).
Proof.
  induction l as [|y l IH]; simpl; [reflexivity|].
  destruct (key x <=? key y); [reflexivity|].
  rewrite IH. apply perm_swap.
Qed.

Lemma sorted_Permutation (l : list A) : Permutation (sorted key l) l.
Proof.
  induction l as [|x l IH]; simpl; [reflexivity|].
  rewrite insert_by_Permutation. constructor; exact IH.
Qed.

Lemma insert_by_HdRel (x y : A) (l : list A) :
  key y <= key x -> HdRel (key_le key) y l ->
  HdRel (key_le key) y (insert_by key x l).
Proof.
  intros Hyx Hhd. destruct l as [|z l]; simpl.
  - constructor; exact Hyx.
  - destruct (key x <=? key z); constructor; [exact Hyx|].
    inversion Hhd; assumption.
Qed.

Lemma insert_by_Sorted (x : A) (l : list A) :
  Sorted (key_le key) l -> Sorted (key_le key) (insert_by key x l).
Proof.
  induction 1 as [|y l Hs IH Hhd]; simpl.
  - repeat constructor.
  - destruct (Z.leb_spec (key x) (key y)).
    + constructor; [constructor; assumption|]. constructor; assumption.
    + constructor; [exact IH|]. apply insert_by_HdRel; [lia | exact Hhd].
Qed.

Lemma sorted_Sorted (l : list A) : Sorted (key_le key) (sorted key l).
Proof.
  induction l as [|x l IH]; simpl; [constructor|].
  apply insert_by_Sorted; exact IH.
Qed.

(** Inserting [x] puts it before every element of the same key. *)
Lemma with_key_insert_by (k : Z) (x : A) (l : list A) :
  with_key key k (insert_by key x l) = with_key key k (x :: l).
Proof.
  induction l as [|y l IH]; [reflexivity|].
  cbn [insert_by]. destruct (Z.leb_spec (key x) (key y)); [reflexivity|].
  unfold with_key in *. cbn [List.filter] in *. rewrite IH.
  destruct (Z.eqb_spec (key y) k), (Z.eqb_spec (key x) k); try reflexivity.
  lia.
Qed.

Lemma with_key_sorted (k : Z) (l : list A) :
  with_key key k (sorted key l) = with_key key k l.
Proof.
  induction l as [|x l IH]; [reflexivity|].
  cbn [sorted]. rewrite with_key_insert_by.
  unfold with_key in *. cbn [List.filter]. rewrite IH. reflexivity.
Qed.
End Sorted_facts.

(** ** [BasicParticipant.__init__] *)

Section Participant_facts.
Context `{C : EMDAT_core}.

(** The steps a successful construction went through. *)
Lemma BasicParticipant_init_Ok (a : CtorArgs) (p : BasicParticipant) :
  BasicParticipant_init a = Ok p ->
  exists rec scl n aois segs scs ws,
    make_recording a = Ok rec /\
    partition (segfile a) = Ok (scl, n) /\ n <> 0 /\
    process_rec rec scl aois (prune_length a) (require_valid_segs a)
      (auto_partition_low_quality_segments a) (rpsdata a)
      (export_pupilinfo a) = Ok (segs, scs) /\
    Scene_init (pid a ++ "_allsc")%string rec (sorted start segs) aois
      (prune_length a) (require_valid_segs a) (export_pupilinfo a) = Ok ws /\
    p = {| features := {[ "numofsegments" := n ]};
           numofsegments := n;
           segments := segs;
           scenes := clean_memory <$> (ws :: scs);
           whole_scene := clean_memory ws |}.
Proof.
  unfold BasicParticipant_init. intros H.
  apply bind_Ok in H as (u & _ & H).
  apply bind_Ok in H as (rec & Hrec & H).
  apply bind_Ok in H as ([scl n] & Hpart & H).
  destruct (Z.eqb_spec n 0) as [|Hn]; [discriminate|].
  apply bind_Ok in H as (aois & _ & H).
  apply bind_Ok in H as ([segs scs] & Hproc & H).
  apply bind_Ok in H as (ws & Hws & [= <-]).
  exists rec, scl, n, aois, segs, scs, ws. repeat split; assumption.
Qed.

(** C6: when [partition] finds no segment, the construction raises; and
    when the base constructor and the parse of the recording went through,
    what it raises is the exception "No segments found.". *)
Theorem no_segments_raises (a : CtorArgs) (scl : SceneList) :
  partition (segfile a) = Ok (scl, 0) ->
  (exists e, BasicParticipant_init a = Raise e) /\
  (forall rec, base_init a = Ok () -> make_recording a = Ok rec ->
     BasicParticipant_init a = Raise (Exception "No segments found.")).
Proof.
  intros Hpart. unfold BasicParticipant_init. split.
  - destruct (base_init a) as [u|e]; simpl; [|eauto].
    destruct (make_recording a) as [rec|e]; simpl; [|eauto].
    rewrite Hpart; simpl. eauto.
  - intros rec -> ->. simpl. rewrite Hpart. reflexivity.
Qed.

(** C7: the whole-recording Scene of a constructed participant is built
    from the participant's segments sorted by [start]: the sorted list is
    ascending, is a permutation of the segments, and keeps segments of equal
    start in their original order; and that Scene is the first element of
    the participant's scene list. *)
Theorem whole_scene_sorted_and_first (a : CtorArgs) (p : BasicParticipant) :
  BasicParticipant_init a = Ok p ->
  let all_segs := sorted start (segments p) in
  exists rec aois ws scs,
    Scene_init (pid a ++ "_allsc")%string rec all_segs aois
      (prune_length a) (require_valid_segs a) (export_pupilinfo a) = Ok ws /\
    whole_scene p = clean_memory ws /\
    scenes p = whole_scene p :: (clean_memory <$> scs) /\
    Sorted (key_le start) all_segs /\
    Permutation all_segs (segments p) /\
    forall k, with_key start k all_segs = with_key start k (segments p).
Proof.
  intros H all_segs.
  apply BasicParticipant_init_Ok in H
    as (rec & scl & n & aois & segs & scs & ws & _ & _ & _ & _ & Hws & ->).
  exists rec, aois, ws, scs. subst all_segs. simpl.
  split; [exact Hws|]. split; [reflexivity|]. split; [reflexivity|].
  split; [apply sorted_Sorted|]. split; [apply sorted_Permutation|].
  intros k; apply with_key_sorted.
Qed.
End Participant_facts.

Lemma no_segments_raises_witness :
  @partition example_world (segfile (example_args "p2")) = Ok ([], 0) /\
  @BasicParticipant_init example_world (example_args "p2")
  = Raise (Exception "No segments found.").
Proof.
  assert (H : @partition example_world (segfile (example_args "p2"))
              = Ok ([], 0)) by (vm_compute; reflexivity).
  split; [exact H|].
  apply (proj2 (@no_segments_raises example_world (example_args "p2") [] H)
           "data/p2-All-Data.tsv"); vm_compute; reflexivity.
Defined.

Lemma whole_scene_sorted_and_first_witness :
  @BasicParticipant_init example_world (example_args "p3")
    = Ok example_participant /\
  exists rec aois ws scs,
    @Scene_init example_world (pid (example_args "p3") ++ "_allsc")%string rec
      (sorted (@start example_world) (segments example_participant)) aois
      None true true = Ok ws /\
    whole_scene example_participant = @clean_memory example_world ws /\
    scenes example_participant
      = whole_scene example_participant
        :: (@clean_memory example_world <$> scs) /\
    Sorted (key_le (@start example_world))
           (sorted (@start example_world) (segments example_participant)) /\
    Permutation (sorted (@start example_world) (segments example_participant))
                (segments example_participant) /\
    forall k,
      with_key (@start example_world) k
        (sorted (@start example_world) (segments example_participant))
      = with_key (@start example_world) k (segments example_participant).
Proof.
  assert (H : @BasicParticipant_init example_world (example_args "p3")
              = Ok example_participant) by (vm_compute; reflexivity).
  split; [exact H|].
  exact (@whole_scene_sorted_and_first example_world (example_args "p3")
           example_participant H).
Defined.

(** ** [read_participants_Basic] *)

Section Batch_facts.
Context `{C : EMDAT_core}.
Variables (datadir : string) (prune : option Z) (aoi : option string)
          (require_valid auto_partition : bool)
          (rps : option (gmap string RestPupil)).

Abbreviation loop := (batch_loop datadir prune aoi require_valid auto_partition rps).
Abbreviation body := (batch_step datadir prune aoi require_valid auto_partition rps).
Abbreviation args := (batch_args prune aoi require_valid auto_partition).

Lemma batch_loop_app (pre post : list (string * string * Z))
      (ps : list BasicParticipant) (w : World) :
  loop (pre ++ post) ps w =
  match loop pre ps w with
  | (w1, Ok ps1) => loop post ps1 w1
  | (w1, Raise e) => (w1, Raise e)
  end.
Proof.
  revert ps w; induction pre as [|x pre IH]; intros ps w; simpl; [reflexivity|].
  destruct (body ps w x) as [w1 [ps1|e]]; [apply IH | reflexivity].
Qed.

Lemma batch_step_missing (ps : list BasicParticipant) (w : World)
      (rec pid : string) (off : Z) (c : option RestPupil) files :
  current_rps rps pid = Ok c ->
  recording_files datadir rec = Some files ->
  path_exists (allfile files) = false ->
  body ps w (rec, pid, off) = (log_missing pid w, Ok ps).
Proof. intros Hc Hf He. unfold batch_step. rewrite Hc, Hf, He. reflexivity. Qed.

Lemma batch_step_raises (ps : list BasicParticipant) (w : World)
      (rec pid : string) (off : Z) (c : option RestPupil) files (e : exn) :
  current_rps rps pid = Ok c ->
  recording_files datadir rec = Some files ->
  path_exists (allfile files) = true ->
  BasicParticipant_init (args rec off c files) = Raise e ->
  body ps w (rec, pid, off) = (record_call (args rec off c files) w, Raise e).
Proof.
  intros Hc Hf He Hi. unfold batch_step. rewrite Hc, Hf, He. simpl.
  rewrite Hi. reflexivity.
Qed.


End Batch_facts.

Section Reader_facts.
Context `{C : EMDAT_core}.



(** C5 (amended): when the construction of a participant raises,
    [read_participants_Basic] does not catch the exception: the call raises
    it in turn, nothing is written to the log for it, and the recordings
    that follow are not read. *)
Theorem constructor_failure_aborts_batch
        (datadir : string) (user_list pids : list string)
        (prune : option Z) (aoi : option string) (offs : option (list Z))
        (rv ap : bool) (rpsfile : option string) (w : World)
        (rps : option (gmap string RestPupil))
        (pre post : list (string * string * Z)) (rec pid : string) (off : Z)
        (w1 : World) (ps1 : list BasicParticipant)
        (c : option RestPupil) files (e : exn) :
  read_rest_pupil_sizes rpsfile = Ok rps ->
  zip3 user_list pids (offsets_or_default offs pids)
    = pre ++ (rec, pid, off) :: post ->
  batch_loop datadir prune aoi rv ap rps pre [] w = (w1, Ok ps1) ->
  current_rps rps pid = Ok c ->
  recording_files datadir rec = Some files ->
  path_exists (allfile files) = true ->
  BasicParticipant_init (batch_args prune aoi rv ap rec off c files) = Raise e ->
  exists w2,
    read_participants_Basic datadir user_list pids prune aoi offs rv ap
      rpsfile w = (w2, Raise e) /\
    log_file w2 = log_file w1 /\ warnings w2 = warnings w1 /\
    ctor_calls w2
      = ctor_calls w1 ++ [batch_args prune aoi rv ap rec off c files].
Proof.
  intros Hrps Hzip Hpre Hc Hf He Hi.
  unfold read_participants_Basic. rewrite Hrps, Hzip, batch_loop_app, Hpre.
  cbn [batch_loop].
  rewrite (batch_step_raises datadir prune aoi rv ap rps ps1 w1 rec pid off c
             files e Hc Hf He Hi).
  eexists. split; [reflexivity|]. repeat split.
Qed.

(** C8 (amended): a recording whose sample file does not exist, once the
    loop has reached it and the lookup [rpsdata[pid]] made for it before the
    existence test has not raised, gets a line in the log (and a warning),
    adds no participant, and the batch goes on with the recordings that
    follow: the result of the batch is the result of reading them from
    there. *)
Theorem missing_file_logged_and_skipped
        (datadir : string) (user_list pids : list string)
        (prune : option Z) (aoi : option string) (offs : option (list Z))
        (rv ap : bool) (rpsfile : option string) (w : World)
        (rps : option (gmap string RestPupil))
        (pre post : list (string * string * Z)) (rec pid : string) (off : Z)
        (w1 : World) (ps1 : list BasicParticipant)
        (c : option RestPupil) files :
  read_rest_pupil_sizes rpsfile = Ok rps ->
  zip3 user_list pids (offsets_or_default offs pids)
    = pre ++ (rec, pid, off) :: post ->
  batch_loop datadir prune aoi rv ap rps pre [] w = (w1, Ok ps1) ->
  current_rps rps pid = Ok c ->
  recording_files datadir rec = Some files ->
  path_exists (allfile files) = false ->
  batch_step datadir prune aoi rv ap rps ps1 w1 (rec, pid, off)
    = (log_missing pid w1, Ok ps1) /\
  log_file (log_missing pid w1) =
    log_file w1 ++
    [("Error reading participant files for: " ++ pid ++ " FILE NOT FOUND"
      ++ String "010"%char "")%string] /\
  ctor_calls (log_missing pid w1) = ctor_calls w1 /\
  read_participants_Basic datadir user_list pids prune aoi offs rv ap
    rpsfile w
  = batch_loop datadir prune aoi rv ap rps post ps1 (log_missing pid w1).
Proof.
  intros Hrps Hzip Hpre Hc Hf He.
  pose proof (batch_step_missing datadir prune aoi rv ap rps ps1 w1 rec pid
                off c files Hc Hf He) as Hstep.
  split; [exact Hstep|]. split; [reflexivity|]. split; [reflexivity|].
  unfold read_participants_Basic. rewrite Hrps, Hzip, batch_loop_app, Hpre.
  cbn [batch_loop]. rewrite Hstep. reflexivity.
Qed.
End Reader_facts.

(** *** The examples *)

(** The batch of [p3] alone, without offsets: its one participant is
    constructed with the offset 1, in seconds, which is 1000 ms. *)
Lemma default_offset_example :
  @read_participants_Basic example_world "data" ["p3"] ["p3"] None None None
    true false None empty_world
  = (record_call (example_args "p3") empty_world, Ok [example_participant]) /\
  log_time_offset (example_args "p3") = Some 1 /\
  offset_ms <$> log_time_offset (example_args "p3") = Some 1000.
Proof.
  split; [vm_compute; reflexivity|]. split; reflexivity.
Qed.

(** C5, as stated, fails: in the batch [p1], [p3] the parse of [p1] raises;
    the call raises the same exception instead of returning, writes nothing
    to the log, and never constructs [p3]. *)
Lemma constructor_failure_counterexample :
  @read_participants_Basic example_world "data" ["p1"; "p3"] ["p1"; "p3"]
    None None None true false None empty_world
  = (record_call (example_args "p1") empty_world, Raise ValueError) /\
  log_file (record_call (example_args "p1") empty_world) = [] /\
  warnings (record_call (example_args "p1") empty_world) = [] /\
  ctor_calls (record_call (example_args "p1") empty_world)
  = [example_args "p1"].
Proof.
  split; [vm_compute; reflexivity|]. repeat split.
Qed.

Lemma constructor_failure_aborts_batch_witness :
  exists w2,
    @read_participants_Basic example_world "data" ["p3"; "p1"; "p3"]
      ["p3"; "p1"; "p3"] None None None true false None empty_world
    = (w2, Raise ValueError) /\
    log_file w2 = log_file (record_call (example_args "p3") empty_world) /\
    warnings w2 = warnings (record_call (example_args "p3") empty_world) /\
    ctor_calls w2
    = ctor_calls (record_call (example_args "p3") empty_world)
      ++ [@batch_args example_world None None true false "p1" 1 None
            ("data/p1-All-Data.tsv", "data/p1-Fixation-Data.tsv", None, None,
             "data/p1.seg")].
Proof.
  apply (@constructor_failure_aborts_batch example_world "data"
           ["p3"; "p1"; "p3"] ["p3"; "p1"; "p3"] None None None true false None
           empty_world None [("p3", "p3", 1)] [("p3", "p3", 1)] "p1" "p1" 1
           (record_call (example_args "p3") empty_world) [example_participant]
           None
           ("data/p1-All-Data.tsv", "data/p1-Fixation-Data.tsv", None, None,
            "data/p1.seg")
           ValueError);
    vm_compute; reflexivity.
Defined.

(** C8, as stated, fails: in the batch [p3], [p4], [p3] the sample file of
    [p4] does not exist, and the rest pupil sizes know [p3] only.  The lookup
    [rpsdata[pid]] raises [KeyError] before the existence test is made:
    nothing is logged for [p4], the batch fails, and the second [p3] is
    never constructed. *)
Lemma missing_file_counterexample :
  @path_exists example_world_rps "data/p4-All-Data.tsv" = false /\
  @read_participants_Basic example_world_rps "data" ["p3"; "p4"; "p3"]
    ["p3"; "p4"; "p3"] None None None true false (Some "rest.tsv") empty_world
  = (record_call
       (@batch_args example_world_rps None None true false "p3" 1 (Some 4)
          ("data/p3-All-Data.tsv", "data/p3-Fixation-Data.tsv", None, None,
           "data/p3.seg"))
       empty_world,
     Raise (KeyError "p4")) /\
  log_file
    (record_call
       (@batch_args example_world_rps None None true false "p3" 1 (Some 4)
          ("data/p3-All-Data.tsv", "data/p3-Fixation-Data.tsv", None, None,
           "data/p3.seg"))
       empty_world) = [].
Proof.
  split; [vm_compute; reflexivity|]. split; [vm_compute; reflexivity|].
  reflexivity.
Qed.

Lemma missing_file_logged_and_skipped_witness :
  @path_exists example_world "data/p4-All-Data.tsv" = false /\
  @read_participants_Basic example_world "data" ["p3"; "p4"; "p3"]
    ["p3"; "p4"; "p3"] None None None true false None empty_world
  = @batch_loop example_world "data" None None true false None
      [("p3", "p3", 1)] [example_participant]
      (log_missing "p4" (record_call (example_args "p3") empty_world)).
Proof.
  split; [vm_compute; reflexivity|].
  apply (@missing_file_logged_and_skipped example_world "data"
           ["p3"; "p4"; "p3"] ["p3"; "p4"; "p3"] None None None true false None
           empty_world None [("p3", "p3", 1)] [("p3", "p3", 1)] "p4" "p4" 1
           (record_call (example_args "p3") empty_world) [example_participant]
           None
           ("data/p4-All-Data.tsv", "data/p4-Fixation-Data.tsv", None, None,
            "data/p4.seg"));
    vm_compute; reflexivity.
Defined.

(** The batch [p3], [p4], [p3] as a whole: two participants, one log line. *)
Lemma missing_file_batch_example :
  @read_participants_Basic example_world "data" ["p3"; "p4"; "p3"]
    ["p3"; "p4"; "p3"] None None None true false None empty_world
  = (record_call (example_args "p3")
       (log_missing "p4" (record_call (example_args "p3") empty_world)),
     Ok [example_participant; example_participant]).
Proof. vm_compute; reflexivity. Qed.

(** * Further properties *)

(** ** Loops that append one item per row *)


Lemma append_loop_from {A B} (item : A -> result B) (rows : list A) :
  forall acc,
    foldM (fun all row => x ← item row; Ok (all ++ [x])) acc rows
    = (ys ← append_each item rows; Ok (acc ++ ys)).
Proof.
  unfold append_each.
  induction rows as [|row rows IH]; intros acc; simpl.
  - rewrite app_nil_r. reflexivity.
  - destruct (item row) as [x|e]; simpl; [|reflexivity].
    rewrite (IH (acc ++ [x])), (IH [x]).
    destruct (foldM _ [] rows) as [ys|e]; simpl; [|reflexivity].
    rewrite <- app_assoc. reflexivity.
Qed.

Lemma append_each_cons {A B} (item : A -> result B) (row : A) (rows : list A) :
  append_each item (row :: rows)
  = (x ← item row; xs ← append_each item rows; Ok (x :: xs)).
Proof.
  unfold append_each at 1. simpl.
  destruct (item row) as [x|e]; simpl; [|reflexivity].
  apply (append_loop_from item rows [x]).
Qed.

Lemma append_each_app {A B} (item : A -> result B) (xs ys : list A) :
  append_each item (xs ++ ys)
  = (a ← append_each item xs; b ← append_each item ys; Ok (a ++ b)).
Proof.
  induction xs as [|x xs IH]; simpl.
  - destruct (append_each item ys); reflexivity.
  - rewrite !append_each_cons. destruct (item x) as [y|e]; simpl; [|reflexivity].
    rewrite IH. destruct (append_each item xs) as [a|e]; simpl; [|reflexivity].
    destruct (append_each item ys); reflexivity.
Qed.

Lemma append_each_Ok {A B} (item : A -> result B) (rows : list A) (out : list B) :
  append_each item rows = Ok out <->
  Forall2 (fun row x => item row = Ok x) rows out.
Proof.
  revert out; induction rows as [|row rows IH]; intros out.
  - split.
    + intros [= <-]. constructor.
    + intros H; inversion H; reflexivity.
  - rewrite append_each_cons. split.
    + intros H. apply bind_Ok in H as (x & Hx & H).
      apply bind_Ok in H as (xs & Hxs & [= <-]).
      constructor; [exact Hx | apply IH; exact Hxs].
    + intros H. inversion H as [|? x ? xs Hx Hxs]; subst.
      rewrite Hx. simpl. apply IH in Hxs. rewrite Hxs. reflexivity.
Qed.

Lemma append_each_Raise {A B} (item : A -> result B) (pre post : list A)
      (row : A) (e : exn) :
  Forall (fun r => exists x, item r = Ok x) pre -> item row = Raise e ->
  append_each item (pre ++ row :: post) = Raise e.
Proof.
  intros Hpre Hrow. induction Hpre as [|r pre [x Hx] _ IH]; simpl.
  - rewrite append_each_cons, Hrow. reflexivity.
  - rewrite append_each_cons, Hx. simpl. rewrite IH. reflexivity.
Qed.

(** ** More about [read_saccade_data] *)

Section TobiiV2_more.
Context `{U : EMDAT_utils}.

Lemma step_skipped (st : state) (row : Row) :
  skipped row = true -> step st row = Ok st.
Proof. intros H; unfold step; rewrite H; reflexivity. Qed.

(** A row that does not close a window never raises and emits nothing. *)
Lemma step_not_closing (st : state) (row : Row) :
  ~ closes st row ->
  exists st', step st row = Ok st' /\ all_saccade st' = all_saccade st.
Proof.
  intros Hn. unfold step. destruct (skipped row) eqn:Hsk; [eauto|].
  destruct (in_fixation st) eqn:Hf; [|destruct (in_saccade st) eqn:Hs].
  - unfold step_in_fixation.
    destruct (is_fixation row); [|destruct (is_saccade row)];
      try destruct (valid_gaze row);
      (eexists; split; [reflexivity|]);
      rewrite all_saccade_update_last_gaze; reflexivity.
  - unfold step_in_saccade.
    destruct (is_fixation row) eqn:Hfix;
      [exfalso; apply Hn; repeat split; assumption|].
    destruct (is_saccade row); try destruct (valid_gaze row);
      (eexists; split; [reflexivity|]);
      rewrite all_saccade_update_last_gaze; reflexivity.
  - unfold step_waiting.
    destruct (is_fixation row);
      (eexists; split; [reflexivity|]);
      rewrite all_saccade_update_last_gaze; reflexivity.
Qed.

Lemma closes_dec (st : state) (row : Row) : closes st row \/ ~ closes st row.
Proof.
  unfold closes.
  destruct (skipped row), (in_fixation st), (in_saccade st), (is_fixation row);
    (left; repeat split; reflexivity) || (right; intros (? & ? & ? & ?); discriminate).
Qed.

(** The three outcomes of one iteration from a state the loop can be in. *)
Lemma step_outcomes (st : state) (row : Row) :
  invariant st ->
  (exists st', step st row = Ok st' /\ all_saccade st' = all_saccade st) \/
  (exists st' s, step st row = Ok st' /\
     all_saccade st' = all_saccade st ++ [s] /\ emitted s) \/
  (step st row = Raise ZeroDivisionError /\ closes st row /\
   exists v nv ns p0,
     closing_window st row = (v, nv, ns) /\
     Qle_bool VALID_SAMPLES_PROP_SACCADE (inject_Z nv / inject_Z ns) = true /\
     (inject_Z nv / inject_Z ns <= 1)%Q /\
     first_point v = Ok p0 /\
     cast_int (RecordingTimestamp row) = pt_time p0).
Proof.
  intros Hinv. destruct (closes_dec st row) as [Hcl|Hn];
    [|left; apply step_not_closing; exact Hn].
  assert (Hs : in_saccade st = true) by apply Hcl.
  destruct (closing_window st row) as [[v nv] ns] eqn:Hw.
  destruct (closing_window_counters st row Hinv Hs _ _ _ Hw) as (Hc & Hn & Hv).
  pose proof (step_close st row v nv ns Hcl Hw ltac:(lia)) as Hclose.
  simpl in Hclose. destruct (Qle_bool _ _) eqn:Hq.
  - destruct v as [|p0 v']; [contradiction|].
    specialize (Hclose p0 eq_refl).
    destruct (Z.eqb_spec (cast_int (RecordingTimestamp row) - pt_time p0) 0)
      as [Hz|Hnz].
    + right; right. split; [exact Hclose|]. split; [exact Hcl|].
      exists (p0 :: v'), nv, ns, p0.
      repeat split; [exact Hq | apply quot_in_unit; lia | lia].
    + right; left. destruct Hclose as (st' & s & Hst & Hall & Hqs & _ & Hd).
      exists st', s. split; [exact Hst|]. split; [exact Hall|].
      unfold emitted. rewrite Hqs, Hd.
      split; [apply Qle_bool_iff; exact Hq|].
      split; [apply quot_in_unit; lia | exact Hnz].
  - left. exact Hclose.
Qed.

Lemma run_keeps_invariant (st st' : state) (rows : list Row) :
  invariant st -> run st rows = Ok st' -> invariant st'.
Proof.
  intros Hinv Hrun.
  exact (foldM_invariant step invariant step_invariant rows st st' Hinv Hrun).
Qed.


(** X2: the samples outside the recording (another media name, or no
    eye-tracker timestamp) have no effect: removing them from the stream
    leaves the result, or the exception, the same. *)
Theorem skipped_rows_are_ignored (rows : list Row) :
  read_saccade_data (List.filter (fun r => negb (skipped r)) rows)
  = read_saccade_data rows.
Proof.
  unfold read_saccade_data. f_equal. generalize init_state.
  induction rows as [|row rows IH]; intros st; [reflexivity|].
  cbn [List.filter]. destruct (skipped row) eqn:Hsk; cbn [negb].
  - unfold run. cbn [foldM]. rewrite step_skipped by exact Hsk. apply IH.
  - unfold run. cbn [foldM]. destruct (step st row); simpl; [apply IH|reflexivity].
Qed.

(** X3: every Saccade of a result passed the quality threshold and lasts a
    non-zero time. *)
Theorem emitted_saccades_pass_threshold (rows : list Row) (l : list Saccade) :
  read_saccade_data rows = Ok l -> Forall emitted l.
Proof.
  unfold read_saccade_data. intros H.
  apply bind_Ok in H as (st & Hrun & [= <-]).
  assert (HI : invariant st /\ Forall emitted (all_saccade st)); [|apply HI].
  apply (foldM_invariant step
           (fun st => invariant st /\ Forall emitted (all_saccade st)))
    with (xs := rows) (st := init_state); [| |exact Hrun].
  - intros st0 row st1 [Hinv Hem] Hstep.
    split; [eapply step_invariant; eassumption|].
    destruct (step_outcomes st0 row Hinv)
      as [(st' & Hst & Hall)|[(st' & s & Hst & Hall & Hs)|[Hr _]]].
    + rewrite Hstep in Hst; injection Hst as <-. rewrite Hall. exact Hem.
    + rewrite Hstep in Hst; injection Hst as <-. rewrite Hall.
      apply Forall_app; split; [exact Hem|]. constructor; [exact Hs|constructor].
    + congruence.
  - split; [apply init_state_invariant | constructor].
Qed.


(** X6: reading more rows never changes the Saccades already found: the
    result for a stream is a prefix of the result for any stream that
    continues it. *)
Theorem saccades_of_a_prefix (rows more : list Row) (l l' : list Saccade) :
  read_saccade_data rows = Ok l ->
  read_saccade_data (rows ++ more) = Ok l' ->
  exists k, l' = l ++ k.
Proof.
  unfold read_saccade_data, run. rewrite foldM_app. intros H H'.
  apply bind_Ok in H as (st & Hrun & [= <-]). rewrite Hrun in H'. simpl in H'.
  apply bind_Ok in H' as (st' & Hrun' & [= <-]).
  pose proof (run_keeps_invariant _ _ _ init_state_invariant Hrun) as Hinv.
  clear Hrun. revert st Hinv Hrun'.
  induction more as [|row more IH]; intros st Hinv; simpl.
  - intros [= <-]. exists []. rewrite app_nil_r. reflexivity.
  - intros H. apply bind_Ok in H as (st1 & Hstep & Hmore).
    destruct (IH st1 (step_invariant _ _ _ Hinv Hstep) Hmore) as (k & Hk).
    destruct (step_outcomes st row Hinv)
      as [(st2 & Hst & Hall)|[(st2 & s & Hst & Hall & _)|[Hr _]]];
      try congruence; rewrite Hstep in Hst; injection Hst as <-.
    + exists k. congruence.
    + exists (s :: k). rewrite Hk, Hall, <- app_assoc. reflexivity.
Qed.
End TobiiV2_more.

(** ** More about [read_all_data] *)

Section AllData_more.
Context `{P : EMDAT_pupil}.

(** Whether a row parses does not depend on the rows before it. *)
Lemma datapoint_of_Raise (st st' : AllData.state) (row : gmap string string)
      (e : exn) :
  AllData.datapoint_of st row = Raise e -> AllData.datapoint_of st' row = Raise e.
Proof.
  unfold AllData.datapoint_of.
  destruct (AllData.getitem row "RecordingTimestamp") as [ts|]; simpl; [|auto].
  destruct (AllData.float ts) as [tf|]; simpl; [|auto].
  destruct (int_of_float tf) as [t|]; simpl; [|auto].
  destruct (AllData.getitem row "avg_x") as [ax|]; simpl; [|auto].
  destruct (AllData.float ax) as [gx|]; simpl; [discriminate|auto].
Qed.

(** X7: there is no partial result: when the rows before a row parse and the
    row does not, the whole file fails with the exception of that row,
    whatever follows; for a row without the column "RecordingTimestamp" this
    is the [KeyError] of that column. *)
Theorem all_data_fails_at_first_bad_row
        (pre post : list (gmap string string)) (row : gmap string string)
        (dps : list AllData.Datapoint) (e : exn) :
  AllData.read_all_data pre = Ok dps ->
  AllData.datapoint_of AllData.init_state row = Raise e ->
  AllData.read_all_data (pre ++ row :: post) = Raise e /\
  (row !! "RecordingTimestamp" = None -> e = KeyError "RecordingTimestamp").
Proof.
  unfold AllData.read_all_data. intros Hpre Hrow.
  apply bind_Ok in Hpre as (st & Hpre & _). split.
  - rewrite foldM_app, Hpre, result_bind_Ok. cbn [foldM].
    assert (Hs : AllData.step st row = Raise e).
    { unfold AllData.step. rewrite (datapoint_of_Raise _ st _ _ Hrow).
      reflexivity. }
    rewrite Hs. reflexivity.
  - intros Hnone. unfold AllData.datapoint_of, AllData.getitem in Hrow.
    rewrite Hnone in Hrow. simpl in Hrow. congruence.
Qed.

(** The loop keeps [last_time] at the timestamp of the last row read, and the
    two last pupil values at [None]. *)
Lemma all_data_state (rows : list (gmap string string)) :
  forall st st',
    AllData.last_pupil_left st = None -> AllData.last_pupil_right st = None ->
    AllData.last_time st
      = from_option AllData.timestamp (-1) (last (AllData.all_data st)) ->
    (forall i dp, AllData.all_data st !! i = Some dp ->
       AllData.pupilvelocity dp
       = get_pupil_velocity None None None None
           (AllData.timestamp dp - previous_time (AllData.all_data st) i)) ->
    foldM AllData.step st rows = Ok st' ->
    forall i dp, AllData.all_data st' !! i = Some dp ->
      AllData.pupilvelocity dp
      = get_pupil_velocity None None None None
          (AllData.timestamp dp - previous_time (AllData.all_data st') i).
Proof.
  induction rows as [|row rows IH]; intros st st' Hl Hr Ht Hall; simpl.
  - intros [= <-]. exact Hall.
  - intros H. apply bind_Ok in H as (st1 & Hstep & Hrun).
    unfold AllData.step in Hstep.
    apply bind_Ok in Hstep as (dp & Hdp & [= <-]).
    assert (Hv : AllData.pupilvelocity dp
                 = get_pupil_velocity None None None None
                     (AllData.timestamp dp - AllData.last_time st)).
    { unfold AllData.datapoint_of in Hdp.
      apply bind_Ok in Hdp as (ts & _ & Hdp). apply bind_Ok in Hdp as (tf & _ & Hdp).
      apply bind_Ok in Hdp as (t & _ & Hdp). apply bind_Ok in Hdp as (ax & _ & Hdp).
      apply bind_Ok in Hdp as (gx & _ & [= <-]). simpl. rewrite Hl, Hr. reflexivity. }
    eapply IH; [| | | |exact Hrun]; simpl.
    + reflexivity.
    + reflexivity.
    + rewrite last_snoc. reflexivity.
    + intros i dp' Hi.
      assert (Hprev : forall j, (j < length (AllData.all_data st))%nat ->
                (AllData.all_data st ++ [dp]) !! j = AllData.all_data st !! j)
        by (intros j Hj; apply lookup_app_l; exact Hj).
      destruct (Nat.lt_ge_cases i (length (AllData.all_data st))) as [Hlt|Hge].
      * rewrite Hprev in Hi by exact Hlt. rewrite (Hall _ _ Hi). f_equal. f_equal.
        destruct i as [|j]; [reflexivity|]. simpl. rewrite Hprev by lia. reflexivity.
      * rewrite lookup_app_r in Hi by exact Hge.
        destruct (i - length (AllData.all_data st))%nat as [|k] eqn:Hk;
          [|destruct k; discriminate].
        injection Hi as <-. rewrite Hv, Ht. f_equal. f_equal.
        assert (i = length (AllData.all_data st)) as -> by lia.
        destruct (AllData.all_data st) as [|d0 l0] eqn:Hd using rev_ind;
          [reflexivity|].
        rewrite last_snoc, length_app. simpl.
        replace (length l0 + 1)%nat with (S (length l0)) by lia. simpl.
        rewrite lookup_app_l by (rewrite length_app; simpl; lia).
        rewrite lookup_app_r by lia. rewrite Nat.sub_diag. reflexivity.
Qed.

(** X8: the pupil velocity of every [Datapoint] is the one the shared
    derivation gives for no pupil value at all, neither current nor previous,
    over the time elapsed since the row before; for the first row the time
    is counted from -1. *)
Theorem all_data_velocity_from_no_pupil
        (rows : list (gmap string string)) (dps : list AllData.Datapoint) :
  AllData.read_all_data rows = Ok dps ->
  forall i dp, dps !! i = Some dp ->
    AllData.pupilvelocity dp
    = get_pupil_velocity None None None None
        (AllData.timestamp dp - previous_time dps i).
Proof.
  unfold AllData.read_all_data. intros H.
  apply bind_Ok in H as (st & Hrun & [= <-]).
  apply (all_data_state rows AllData.init_state st); try reflexivity;
    [|exact Hrun].
  intros i dp Hi. discriminate.
Qed.
End AllData_more.

(** ** [read_fixation_data] *)

Section Fixations_facts.
Context `{P : EMDAT_pupil}.

Lemma getitem_Ok (row : gmap string string) (col v : string) :
  AllData.getitem row col = Ok v -> row !! col = Some v.
Proof.
  unfold AllData.getitem. destruct (row !! col); [congruence|discriminate].
Qed.

Lemma int_column_Ok (row : gmap string string) (col : string) (z : Z) :
  Fixations.int_column row col = Ok z -> is_Some (row !! col).
Proof.
  unfold Fixations.int_column. intros H.
  apply bind_Ok in H as (s & Hs & _). apply getitem_Ok in Hs. eauto.
Qed.

(** X9: the fixations of a file are read row by row, with nothing carried
    from one row to the next: the result for two lists of rows put end to end
    is the two results put end to end, and the exception of the first part
    that fails otherwise. *)
Theorem read_fixation_data_app (rows1 rows2 : list (gmap string string)) :
  Fixations.read_fixation_data (rows1 ++ rows2)
  = (a ← Fixations.read_fixation_data rows1;
     b ← Fixations.read_fixation_data rows2;
     Ok (a ++ b)).
Proof. apply append_each_app. Qed.

(** X10: a file is read into fixations only if each of its rows has the five
    columns the parser reads; the result then has one [Fixation] per row, in
    the order of the rows, with the index given by [cast_int]. *)
Theorem read_fixation_data_columns
        (rows : list (gmap string string)) (fs : list Fixations.Fixation) :
  Fixations.read_fixation_data rows = Ok fs ->
  Forall2 (fun row f =>
             has_columns ["Unnamed: 0"; "starttime"; "duration"; "endx"; "endy"]
                         row /\
             (cast_int <$> row !! "Unnamed: 0")
             = Some (Fixations.fixationindex f))
          rows fs.
Proof.
  unfold Fixations.read_fixation_data. intros H.
  apply append_each_Ok in H.
  induction H as [|row f rows fs Hrow _ IH]; constructor; [|exact IH].
  unfold Fixations.fixation_of in Hrow.
  apply bind_Ok in Hrow as (idx & Hidx & Hrow).
  apply bind_Ok in Hrow as (t & Ht & Hrow).
  apply bind_Ok in Hrow as (d & Hd & Hrow).
  apply bind_Ok in Hrow as (x & Hx & Hrow).
  apply bind_Ok in Hrow as (y & Hy & [= <-]).
  apply getitem_Ok in Hidx. split.
  - unfold has_columns. repeat constructor; eauto using int_column_Ok.
  - rewrite Hidx. reflexivity.
Qed.

(** X11: there is no partial result: when the rows before a row parse and
    the row does not, the whole file fails with the exception of that row. *)
Theorem read_fixation_data_fails_at_first_bad_row
        (pre post : list (gmap string string)) (row : gmap string string)
        (fs : list Fixations.Fixation) (e : exn) :
  Fixations.read_fixation_data pre = Ok fs ->
  Fixations.fixation_of row = Raise e ->
  Fixations.read_fixation_data (pre ++ row :: post) = Raise e.
Proof.
  unfold Fixations.read_fixation_data. intros Hpre Hrow.
  apply append_each_Raise; [|exact Hrow].
  apply append_each_Ok in Hpre.
  induction Hpre; constructor; eauto.
Qed.
End Fixations_facts.

(** ** More about [BasicParticipant.__init__] *)

Section Participant_more.
Context `{C : EMDAT_core}.

Lemma unknown_tracker_eqb :
  unknown_tracker ->
  String.eqb EYETRACKERTYPE "TobiiV2" = false /\
  String.eqb EYETRACKERTYPE "TobiiV3" = false /\
  String.eqb EYETRACKERTYPE "SMI" = false.
Proof.
  intros (H1 & H2 & H3). repeat split; apply String.eqb_neq; assumption.
Qed.

(** X15: with a tracker type that is none of "TobiiV2", "TobiiV3" and "SMI"
    no participant can be constructed; once the base constructor has
    returned, the exception is "Unknown eye tracker type.", raised before the
    segment file is looked at. *)
Theorem unknown_tracker_raises (a : CtorArgs) :
  unknown_tracker ->
  (exists e, BasicParticipant_init a = Raise e) /\
  (base_init a = Ok () ->
   BasicParticipant_init a = Raise (Exception "Unknown eye tracker type.")).
Proof.
  intros Hu. destruct (unknown_tracker_eqb Hu) as (H1 & H2 & H3).
  assert (Hrec : make_recording a = Raise (Exception "Unknown eye tracker type.")).
  { unfold make_recording. rewrite H1, H2, H3. reflexivity. }
  unfold BasicParticipant_init. rewrite Hrec. split.
  - destruct (base_init a); simpl; eauto.
  - intros ->. reflexivity.
Qed.

(** X16: a constructed participant has a segment count that is not zero, is
    the count [partition] returned for its segment file, and is what its
    feature map holds under "numofsegments"; its scene list has one more
    scene than [process_rec] returned, and the tracker type is a known one. *)
Theorem constructed_participant (a : CtorArgs) (p : BasicParticipant) :
  BasicParticipant_init a = Ok p ->
  numofsegments p <> 0 /\
  (exists scl, partition (segfile a) = Ok (scl, numofsegments p)) /\
  features p !! "numofsegments" = Some (numofsegments p) /\
  (exists rec scl aois scs,
     process_rec rec scl aois (prune_length a) (require_valid_segs a)
       (auto_partition_low_quality_segments a) (rpsdata a)
       (export_pupilinfo a) = Ok (segments p, scs) /\
     length (scenes p) = S (length scs)) /\
  ~ unknown_tracker.
Proof.
  intros H.
  apply BasicParticipant_init_Ok in H
    as (rec & scl & n & aois & segs & scs & ws & Hrec & Hpart & Hn & Hproc & _ & ->).
  simpl. split; [exact Hn|]. split; [eauto|].
  split; [apply lookup_singleton_eq|].
  split; [exists rec, scl, aois, scs; split; [exact Hproc|]; rewrite length_fmap; reflexivity|].
  intros Hu. destruct (unknown_tracker_eqb Hu) as (H1 & H2 & H3).
  unfold make_recording in Hrec. rewrite H1, H2, H3 in Hrec. discriminate.
Qed.

Lemma sorted_of_Sorted {A} (key : A -> Z) (l : list A) :
  Sorted (key_le key) l -> sorted key l = l.
Proof.
  induction 1 as [|x l Hs IH Hhd]; [reflexivity|].
  cbn [sorted]. rewrite IH. destruct Hhd as [|y l' Hxy]; [reflexivity|].
  cbn [insert_by]. unfold key_le in Hxy.
  destruct (Z.leb_spec (key x) (key y)); [reflexivity | lia].
Qed.

(** X17: when [process_rec] returns the segments already in the order of
    their starts, the whole-recording Scene is built from that very list. *)
Theorem whole_scene_of_ordered_segments (a : CtorArgs) (p : BasicParticipant) :
  BasicParticipant_init a = Ok p ->
  Sorted (key_le start) (segments p) ->
  exists rec aois ws,
    Scene_init (pid a ++ "_allsc")%string rec (segments p) aois
      (prune_length a) (require_valid_segs a) (export_pupilinfo a) = Ok ws /\
    whole_scene p = clean_memory ws.
Proof.
  intros H Hs.
  apply BasicParticipant_init_Ok in H
    as (rec & scl & n & aois & segs & scs & ws & _ & _ & _ & _ & Hws & ->).
  simpl in *. rewrite (sorted_of_Sorted _ _ Hs) in Hws.
  exists rec, aois, ws. split; [exact Hws | reflexivity].
Qed.
End Participant_more.

(** ** More about [read_participants_Basic] *)

Section Batch_more.
Context `{C : EMDAT_core}.
Variables (datadir : string) (prune : option Z) (aoi : option string)
          (require_valid auto_partition : bool)
          (rps : option (gmap string RestPupil)).

Abbreviation loop' := (batch_loop datadir prune aoi require_valid auto_partition rps).
Abbreviation body' := (batch_step datadir prune aoi require_valid auto_partition rps).

(** What one iteration that does not raise leaves behind: a participant and
    a constructor call, or a log line and a warning. *)
Lemma batch_step_Ok (ps ps' : list BasicParticipant) (w w' : World)
      (x : string * string * Z) :
  body' ps w x = (w', Ok ps') ->
  (exists p a, ps' = ps ++ [p] /\ w' = record_call a w /\
               call_key a = recording_key x) \/
  (ps' = ps /\ w' = log_missing x.1.2 w).
Proof.
  destruct x as [[rec pid] off]. unfold batch_step.
  destruct (current_rps rps pid) as [c|e]; [|discriminate].
  destruct (recording_files datadir rec) as [files|]; [|discriminate].
  destruct (path_exists (allfile files)).
  - destruct (BasicParticipant_init _) as [p|e] eqn:Hp; [|discriminate].
    intros [= <- <-]. left. eexists _, _. repeat split.
    unfold call_key, recording_key, batch_args.
    destruct files as [[[[? ?] ?] ?] ?]. reflexivity.
  - intros [= <- <-]. right. split; reflexivity.
Qed.

Lemma batch_loop_accounting (xs : list (string * string * Z)) :
  forall ps w ps' w',
    loop' xs ps w = (w', Ok ps') ->
    exists lines,
      log_file w' = log_file w ++ lines /\
      length (warnings w') = (length (warnings w) + length lines)%nat /\
      (length ps' + length lines = length ps + length xs)%nat.
Proof.
  induction xs as [|x xs IH]; intros ps w ps' w'; cbn [batch_loop].
  - intros [= <- <-]. exists []. rewrite app_nil_r.
    split; [reflexivity|]. simpl. lia.
  - destruct (body' ps w x) as [w1 [ps1|e]] eqn:Hx; [|discriminate].
    intros Hloop. destruct (IH _ _ _ _ Hloop) as (lines & Hlog & Hwarn & Hlen).
    destruct (batch_step_Ok _ _ _ _ _ Hx) as [(p & a & -> & -> & _)|[-> ->]].
    + exists lines. simpl in *. rewrite length_app in Hlen. simpl in *.
      repeat split; [assumption..|lia].
    + eexists (_ :: lines). simpl in *.
      rewrite Hlog, <- app_assoc. split; [reflexivity|].
      rewrite length_app in Hwarn. simpl in *. lia.
Qed.

Lemma batch_step_trace (ps : list BasicParticipant) (w : World)
      (x : string * string * Z) :
  ctor_calls (body' ps w x).1 = ctor_calls w \/
  exists a, ctor_calls (body' ps w x).1 = ctor_calls w ++ [a] /\
            call_key a = recording_key x /\
            export_pupilinfo a = true /\ aoifile a = aoi /\
            prune_length a = prune.
Proof.
  destruct x as [[rec pid] off]. unfold batch_step.
  destruct (current_rps rps pid) as [c|e]; [|left; reflexivity].
  destruct (recording_files datadir rec) as [files|]; [|left; reflexivity].
  destruct (path_exists (allfile files)); [|left; reflexivity].
  right. exists (batch_args prune aoi require_valid auto_partition rec off c files).
  split; [destruct (BasicParticipant_init _); reflexivity|].
  unfold call_key, recording_key, batch_args.
  destruct files as [[[[? ?] ?] ?] ?]. repeat split.
Qed.

Lemma batch_loop_trace (xs : list (string * string * Z)) :
  forall ps w, exists calls,
    ctor_calls (loop' xs ps w).1 = ctor_calls w ++ calls /\
    sublist (call_key <$> calls) (recording_key <$> xs) /\
    Forall (fun a => export_pupilinfo a = true /\ aoifile a = aoi /\
                     prune_length a = prune) calls.
Proof.
  induction xs as [|x xs IH]; intros ps w; cbn [batch_loop].
  - exists []. rewrite app_nil_r. repeat split; constructor.
  - destruct (batch_step_trace ps w x) as [Hc|(a & Hc & Hk & Ha)];
      destruct (body' ps w x) as [w1 [ps1|e]]; cbn [fst] in Hc.
    + destruct (IH ps1 w1) as (calls & Hcalls & Hsub & Hall).
      exists calls. rewrite Hcalls, Hc. split; [reflexivity|].
      split; [|exact Hall]. rewrite fmap_cons. apply sublist_cons. exact Hsub.
    + exists []. cbn [fst]. rewrite Hc, app_nil_r. split; [reflexivity|].
      split; [apply sublist_nil_l | constructor].
    + destruct (IH ps1 w1) as (calls & Hcalls & Hsub & Hall).
      exists (a :: calls). rewrite Hcalls, Hc, <- app_assoc.
      split; [reflexivity|]. split; [|constructor; assumption].
      rewrite !fmap_cons, Hk. apply sublist_skip. exact Hsub.
    + exists [a]. cbn [fst]. split; [exact Hc|].
      split; [|repeat constructor; apply Ha].
      rewrite !fmap_cons, Hk. apply sublist_skip. apply sublist_nil_l.
Qed.
End Batch_more.

Section Reader_more.
Context `{C : EMDAT_core}.

Lemma zip3_length (us ps : list string) (os : list Z) :
  length (zip3 us ps os)
  = (length us `min` (length ps `min` length os))%nat.
Proof.
  revert ps os; induction us as [|u us IH]; intros ps os; [reflexivity|].
  destruct ps as [|p ps]; [reflexivity|].
  destruct os as [|o os]; [simpl; lia|]. simpl. rewrite IH. reflexivity.
Qed.

(** X18: when the batch returns, every recording it was given has either a
    participant in the result or a line in the log, and there are as many
    new warnings as new log lines; the recordings it was given are as many as
    the shortest of the three lists. *)
Theorem every_recording_constructed_or_logged
        (datadir : string) (user_list pids : list string)
        (prune : option Z) (aoi : option string) (offs : option (list Z))
        (rv ap : bool) (rpsfile : option string) (w w' : World)
        (ps : list BasicParticipant) :
  read_participants_Basic datadir user_list pids prune aoi offs rv ap rpsfile w
    = (w', Ok ps) ->
  exists lines,
    log_file w' = log_file w ++ lines /\
    length (warnings w') = (length (warnings w) + length lines)%nat /\
    (length ps + length lines
     = length user_list `min`
         (length pids `min` length (offsets_or_default offs pids)))%nat.
Proof.
  unfold read_participants_Basic.
  destruct (read_rest_pupil_sizes rpsfile) as [rps|e]; [|discriminate].
  intros H. apply batch_loop_accounting in H as (lines & Hlog & Hwarn & Hlen).
  exists lines. rewrite <- zip3_length. simpl in Hlen. auto.
Qed.

(** X19: the constructor is called for recordings of the list only, in the
    order of the list and at most once for each, with the recording (not the
    external participant id) as participant id, the offset paired with the
    recording, and [export_pupilinfo] set. *)
Theorem constructor_calls_follow_the_list
        (datadir : string) (user_list pids : list string)
        (prune : option Z) (aoi : option string) (offs : option (list Z))
        (rv ap : bool) (rpsfile : option string) (w : World) :
  exists calls,
    ctor_calls
      (read_participants_Basic datadir user_list pids prune aoi offs rv ap
         rpsfile w).1
    = ctor_calls w ++ calls /\
    sublist (call_key <$> calls)
            (recording_key
               <$> zip3 user_list pids (offsets_or_default offs pids)) /\
    Forall (fun a => export_pupilinfo a = true /\ aoifile a = aoi /\
                     prune_length a = prune) calls.
Proof.
  unfold read_participants_Basic.
  destruct (read_rest_pupil_sizes rpsfile) as [rps|e].
  - apply batch_loop_trace.
  - exists []. simpl. rewrite app_nil_r. repeat split; [|constructor].
    apply sublist_nil_l.
Qed.

(** X20: with an unknown tracker type a batch of at least one recording
    never returns, logs nothing and calls no constructor.  It raises the
    exception of [read_rest_pupil_sizes] when that call fails; else the
    [KeyError] of the lookup [rpsdata[pid]] of the first recording when that
    fails; else, at the existence test of the first recording,
    [UnboundLocalError] for the variable [allfile], which no branch has
    bound. *)
Theorem unknown_tracker_batch_fails
        (datadir : string) (user_list pids : list string)
        (prune : option Z) (aoi : option string) (offs : option (list Z))
        (rv ap : bool) (rpsfile : option string) (w : World)
        (rec pid : string) (off : Z) (post : list (string * string * Z)) :
  unknown_tracker ->
  zip3 user_list pids (offsets_or_default offs pids) = (rec, pid, off) :: post ->
  read_participants_Basic datadir user_list pids prune aoi offs rv ap rpsfile w
  = (w, Raise match read_rest_pupil_sizes rpsfile with
              | Raise e => e
              | Ok rps =>
                  match current_rps rps pid with
                  | Raise e => e
                  | Ok _ => UnboundLocalError "allfile"
                  end
              end).
Proof.
  intros Hu Hzip. destruct (unknown_tracker_eqb Hu) as (H1 & H2 & H3).
  unfold read_participants_Basic.
  destruct (read_rest_pupil_sizes rpsfile) as [rps|e]; [|reflexivity].
  rewrite Hzip. cbn [batch_loop]. unfold batch_step, recording_files.
  destruct (current_rps rps pid) as [c|e]; [|reflexivity].
  rewrite H1, H2, H3. reflexivity.
Qed.

(** X21: when rest pupil sizes are given and the participant id of a
    recording is not among them, the batch fails with the [KeyError] of that
    id when it reaches the recording, whether or not the files of the
    recording exist; nothing is logged for it. *)
Theorem missing_rest_pupil_raises
        (datadir : string) (user_list pids : list string)
        (prune : option Z) (aoi : option string) (offs : option (list Z))
        (rv ap : bool) (rpsfile : option string) (w : World)
        (d : gmap string RestPupil)
        (pre post : list (string * string * Z)) (rec pid : string) (off : Z)
        (w1 : World) (ps1 : list BasicParticipant) :
  read_rest_pupil_sizes rpsfile = Ok (Some d) ->
  zip3 user_list pids (offsets_or_default offs pids)
    = pre ++ (rec, pid, off) :: post ->
  batch_loop datadir prune aoi rv ap (Some d) pre [] w = (w1, Ok ps1) ->
  d !! pid = None ->
  read_participants_Basic datadir user_list pids prune aoi offs rv ap rpsfile w
  = (w1, Raise (KeyError pid)).
Proof.
  intros Hrps Hzip Hpre Hd.
  unfold read_participants_Basic. rewrite Hrps, Hzip, batch_loop_app, Hpre.
  cbn [batch_loop]. unfold batch_step, current_rps. rewrite Hd. reflexivity.
Qed.
End Reader_more.

(** ** The further examples *)


Lemma emitted_saccades_pass_threshold_witness :
  @read_saccade_data (example_utils (6 # 10)) (stream_FFSSF ++ stream_more)
    = Ok [saccade_FFSSF; saccade_more] /\
  Forall (@emitted (example_utils (6 # 10))) [saccade_FFSSF; saccade_more].
Proof.
  assert (H : @read_saccade_data (example_utils (6 # 10))
                (stream_FFSSF ++ stream_more)
              = Ok [saccade_FFSSF; saccade_more]) by (vm_compute; reflexivity).
  split; [exact H|].
  exact (@emitted_saccades_pass_threshold (example_utils (6 # 10)) _ _ H).
Defined.


Lemma saccades_of_a_prefix_witness :
  @read_saccade_data (example_utils (6 # 10)) stream_FFSSF = Ok [saccade_FFSSF] /\
  @read_saccade_data (example_utils (6 # 10)) (stream_FFSSF ++ stream_more)
    = Ok [saccade_FFSSF; saccade_more] /\
  exists k, [saccade_FFSSF; saccade_more] = [saccade_FFSSF] ++ k.
Proof.
  assert (H1 : @read_saccade_data (example_utils (6 # 10)) stream_FFSSF
               = Ok [saccade_FFSSF]) by (vm_compute; reflexivity).
  assert (H2 : @read_saccade_data (example_utils (6 # 10))
                 (stream_FFSSF ++ stream_more)
               = Ok [saccade_FFSSF; saccade_more]) by (vm_compute; reflexivity).
  split; [exact H1|]. split; [exact H2|].
  exact (@saccades_of_a_prefix (example_utils (6 # 10)) _ _ _ _ H1 H2).
Defined.

Lemma all_data_fails_at_first_bad_row_witness :
  @AllData.read_all_data _ (example_pupil (6 # 10))
    ([row_eyes_lost] ++ row_no_timestamp :: [row_later])
  = Raise (KeyError "RecordingTimestamp").
Proof.
  assert (H1 : @AllData.read_all_data _ (example_pupil (6 # 10)) [row_eyes_lost]
               = Ok [datapoint_eyes_lost]) by (vm_compute; reflexivity).
  assert (H2 : @AllData.datapoint_of _ (example_pupil (6 # 10))
                 AllData.init_state row_no_timestamp
               = Raise (KeyError "RecordingTimestamp"))
    by (vm_compute; reflexivity).
  exact (proj1 (@all_data_fails_at_first_bad_row _ (example_pupil (6 # 10))
                  [row_eyes_lost] [row_later] row_no_timestamp
                  [datapoint_eyes_lost] _ H1 H2)).
Defined.

Lemma all_data_velocity_from_no_pupil_witness :
  @AllData.read_all_data _ (example_pupil (6 # 10)) [row_eyes_lost; row_later]
    = Ok [datapoint_eyes_lost; datapoint_later] /\
  AllData.pupilvelocity datapoint_later
  = @get_pupil_velocity _ (example_pupil (6 # 10)) None None None None
      (150 - 100).
Proof.
  assert (H : @AllData.read_all_data _ (example_pupil (6 # 10))
                [row_eyes_lost; row_later]
              = Ok [datapoint_eyes_lost; datapoint_later])
    by (vm_compute; reflexivity).
  split; [exact H|].
  exact (@all_data_velocity_from_no_pupil _ (example_pupil (6 # 10)) _ _ H
           1%nat datapoint_later eq_refl).
Defined.

Lemma read_fixation_data_columns_witness :
  @Fixations.read_fixation_data _ (example_pupil (6 # 10)) [fixation_row]
    = Ok [fixation_example] /\
  @has_columns ["Unnamed: 0"; "starttime"; "duration"; "endx"; "endy"]
    fixation_row.
Proof.
  assert (H : @Fixations.read_fixation_data _ (example_pupil (6 # 10))
                [fixation_row] = Ok [fixation_example])
    by (vm_compute; reflexivity).
  split; [exact H|].
  pose proof (@read_fixation_data_columns _ (example_pupil (6 # 10)) _ _ H) as F.
  inversion F as [|? ? ? ? [Hc _] _]. exact Hc.
Defined.

Lemma read_fixation_data_fails_at_first_bad_row_witness :
  @Fixations.read_fixation_data _ (example_pupil (6 # 10))
    ([fixation_row] ++ fixation_row_no_duration :: [fixation_row])
  = Raise (KeyError "duration").
Proof.
  assert (H1 : @Fixations.read_fixation_data _ (example_pupil (6 # 10))
                 [fixation_row] = Ok [fixation_example])
    by (vm_compute; reflexivity).
  assert (H2 : @Fixations.fixation_of _ (example_pupil (6 # 10))
                 fixation_row_no_duration = Raise (KeyError "duration"))
    by (vm_compute; reflexivity).
  exact (@read_fixation_data_fails_at_first_bad_row _ (example_pupil (6 # 10))
           [fixation_row] [fixation_row] fixation_row_no_duration
           [fixation_example] _ H1 H2).
Defined.

Lemma unknown_tracker_raises_witness :
  @unknown_tracker example_world_unknown /\
  @BasicParticipant_init example_world_unknown (example_args_unknown "p3")
  = Raise (Exception "Unknown eye tracker type.").
Proof.
  assert (H : @unknown_tracker example_world_unknown)
    by (repeat split; discriminate).
  split; [exact H|].
  apply (proj2 (@unknown_tracker_raises example_world_unknown
                  (example_args_unknown "p3") H)).
  vm_compute; reflexivity.
Defined.

Lemma constructed_participant_witness :
  @BasicParticipant_init example_world (example_args "p3")
    = Ok example_participant /\
  numofsegments example_participant <> 0 /\
  features example_participant !! "numofsegments" = Some 4.
Proof.
  assert (H : @BasicParticipant_init example_world (example_args "p3")
              = Ok example_participant) by (vm_compute; reflexivity).
  split; [exact H|].
  destruct (@constructed_participant example_world _ _ H) as (H1 & _ & H3 & _).
  split; [exact H1 | exact H3].
Defined.

Lemma whole_scene_of_ordered_segments_witness :
  @BasicParticipant_init example_world_ordered example_args_ordered
    = Ok example_participant_ordered /\
  Sorted (key_le (@start example_world_ordered))
         (segments example_participant_ordered) /\
  exists rec aois ws,
    @Scene_init example_world_ordered "p3_allsc" rec
      (segments example_participant_ordered) aois None true true = Ok ws /\
    whole_scene example_participant_ordered
    = @clean_memory example_world_ordered ws.
Proof.
  assert (H : @BasicParticipant_init example_world_ordered example_args_ordered
              = Ok example_participant_ordered) by (vm_compute; reflexivity).
  assert (Hs : Sorted (key_le (@start example_world_ordered))
                      (segments example_participant_ordered)).
  { repeat constructor; unfold key_le; simpl; lia. }
  split; [exact H|]. split; [exact Hs|].
  exact (@whole_scene_of_ordered_segments example_world_ordered _ _ H Hs).
Defined.

Lemma every_recording_constructed_or_logged_witness :
  @read_participants_Basic example_world "data" ["p3"; "p4"; "p3"]
    ["p3"; "p4"; "p3"] None None None true false None empty_world
  = (world_after_batch, Ok [example_participant; example_participant]) /\
  exists lines,
    log_file world_after_batch = [] ++ lines /\
    length (warnings world_after_batch) = (0 + length lines)%nat /\
    (2 + length lines = 3)%nat.
Proof.
  assert (H : @read_participants_Basic example_world "data" ["p3"; "p4"; "p3"]
                ["p3"; "p4"; "p3"] None None None true false None empty_world
              = (world_after_batch,
                 Ok [example_participant; example_participant]))
    by (vm_compute; reflexivity).
  split; [exact H|].
  exact (@every_recording_constructed_or_logged example_world _ _ _ _ _ _ _ _
           _ _ _ _ H).
Defined.

Lemma unknown_tracker_batch_fails_witness :
  @unknown_tracker example_world_unknown /\
  @read_participants_Basic example_world_unknown "data" ["p3"] ["p3"] None None
    None true false None empty_world
  = (empty_world, Raise (UnboundLocalError "allfile")).
Proof.
  assert (H : @unknown_tracker example_world_unknown)
    by (repeat split; discriminate).
  split; [exact H|].
  exact (@unknown_tracker_batch_fails example_world_unknown "data" ["p3"]
           ["p3"] None None None true false None empty_world
           "p3" "p3" 1 [] H eq_refl).
Defined.

Lemma missing_rest_pupil_raises_witness :
  @read_participants_Basic example_world_rps "data" ["p4"; "p3"] ["p4"; "p3"]
    None None None true false (Some "rest.tsv") empty_world
  = (empty_world, Raise (KeyError "p4")).
Proof.
  apply (@missing_rest_pupil_raises example_world_rps "data" ["p4"; "p3"]
           ["p4"; "p3"] None None None true false (Some "rest.tsv") empty_world
           {[ "p3" := 4 ]} [] [("p3", "p3", 1)] "p4" "p4" 1 empty_world []);
    vm_compute; reflexivity.
Defined.

(** ** Counting windows, and the files of a TobiiV2 batch *)

Section Counting.
Context `{U : EMDAT_utils}.

(** The windows opened so far: the Saccades found and the window in
    progress. *)
Lemma step_windows (st st' : state) (row : Row) (n : nat) :
  invariant st -> step st row = Ok st' ->
  (length (all_saccade st) + (if in_saccade st then 1 else 0) <= n)%nat ->
  (length (all_saccade st') + (if in_saccade st' then 1 else 0)
   <= n + length (saccade_samples [row]))%nat.
Proof.
  intros Hinv Hstep Hn. unfold saccade_samples. cbn [List.filter].
  unfold step in Hstep. destruct (skipped row) eqn:Hsk.
  { injection Hstep as <-. simpl. lia. }
  apply bind_Ok in Hstep as (st1 & Hst1 & [= <-]).
  rewrite all_saccade_update_last_gaze.
  assert (Hupd : in_saccade (update_last_gaze st1 row) = in_saccade st1).
  { unfold update_last_gaze. destruct (if has_gaze row then _ else _).
    reflexivity. }
  rewrite Hupd. clear Hupd. cbn [negb andb].
  destruct (in_fixation st) eqn:Hf; [|destruct (in_saccade st) eqn:Hs].
  - rewrite (inv_exclusive _ Hinv Hf) in Hn. unfold step_in_fixation in Hst1.
    destruct (is_fixation row) eqn:Hfix; [|destruct (is_saccade row) eqn:Hsac].
    + injection Hst1 as <-. simpl. rewrite (inv_exclusive _ Hinv Hf).
      destruct (is_saccade row); simpl; lia.
    + destruct (valid_gaze row); injection Hst1 as <-; simpl; lia.
    + injection Hst1 as <-. simpl. rewrite (inv_exclusive _ Hinv Hf).
      simpl. lia.
  - unfold step_in_saccade in Hst1.
    destruct (is_fixation row) eqn:Hfix; [|destruct (is_saccade row) eqn:Hsac].
    + destruct (closing_window st row) as [[v nv] ns].
      apply bind_Ok in Hst1 as (q & _ & Hst1).
      destruct (Qle_bool _ _).
      * apply bind_Ok in Hst1 as (p0 & _ & Hst1).
        apply bind_Ok in Hst1 as (speed & _ & Hst1).
        apply bind_Ok in Hst1 as (pl & _ & [= <-]).
        simpl. rewrite length_app. simpl. destruct (is_saccade row); simpl; lia.
      * injection Hst1 as <-. simpl. destruct (is_saccade row); simpl; lia.
    + destruct (valid_gaze row); injection Hst1 as <-; simpl; rewrite Hs; lia.
    + injection Hst1 as <-. simpl. rewrite Hs. simpl. lia.
  - unfold step_waiting in Hst1.
    destruct (is_fixation row); injection Hst1 as <-; simpl; rewrite ?Hs;
      destruct (is_saccade row); simpl; lia.
Qed.

Lemma saccade_samples_app (rows1 rows2 : list Row) :
  saccade_samples (rows1 ++ rows2)
  = saccade_samples rows1 ++ saccade_samples rows2.
Proof. unfold saccade_samples. induction rows1 as [|r rows1 IH]; simpl;
  [reflexivity|]. destruct (negb (skipped r) && is_saccade r); simpl;
  rewrite IH; reflexivity. Qed.

(** X22: a result never has more Saccades than the stream has
    Saccade-classified samples of the recording: every window is opened by
    one of them. *)
Theorem saccades_bounded_by_saccade_samples (rows : list Row)
        (l : list Saccade) :
  read_saccade_data rows = Ok l ->
  (length l <= length (saccade_samples rows))%nat.
Proof.
  unfold read_saccade_data. intros H.
  apply bind_Ok in H as (st & Hrun & [= <-]).
  assert (G : forall rows st0 st1 n,
             invariant st0 -> run st0 rows = Ok st1 ->
             (length (all_saccade st0) + (if in_saccade st0 then 1 else 0)
              <= n)%nat ->
             (length (all_saccade st1) + (if in_saccade st1 then 1 else 0)
              <= n + length (saccade_samples rows))%nat).
  { clear. induction rows as [|row rows IH]; intros st0 st1 n Hinv Hrun Hn.
    - injection Hrun as <-. simpl. lia.
    - unfold run in Hrun. cbn [foldM] in Hrun.
      apply bind_Ok in Hrun as (st2 & Hstep & Hrun).
      pose proof (step_windows _ _ _ _ Hinv Hstep Hn) as H2.
      pose proof (IH _ _ _ (step_invariant _ _ _ Hinv Hstep) Hrun H2) as H3.
      change (row :: rows) with ([row] ++ rows).
      rewrite saccade_samples_app, length_app. lia. }
  pose proof (G rows init_state st 0%nat init_state_invariant Hrun
                ltac:(simpl; lia)) as HG.
  simpl in HG. lia.
Qed.
End Counting.

Section Batch_files.
Context `{C : EMDAT_core}.

Lemma batch_step_files (datadir : string) (prune : option Z)
      (aoi : option string) (rv ap : bool)
      (rps : option (gmap string RestPupil))
      (ps : list BasicParticipant) (w : World) (x : string * string * Z) :
  EYETRACKERTYPE = "TobiiV2" ->
  exists calls,
    ctor_calls (batch_step datadir prune aoi rv ap rps ps w x).1
    = ctor_calls w ++ calls /\
    Forall (fun a => eventfile a = None /\ saccfile a = None /\
                     path_exists (datafile a) = true) calls.
Proof.
  intros Ht. destruct x as [[rec pid] off]. unfold batch_step.
  destruct (current_rps rps pid) as [c|e];
    [|exists []; simpl; rewrite app_nil_r; split; [reflexivity|constructor]].
  unfold recording_files. rewrite Ht. cbn [String.eqb Ascii.eqb Bool.eqb].
  cbn [allfile fst].
  destruct (path_exists _) eqn:He;
    [|exists []; simpl; rewrite app_nil_r; split; [reflexivity|constructor]].
  eexists [_]. split; [destruct (BasicParticipant_init _); reflexivity|].
  repeat constructor. exact He.
Qed.

(** X23: in a batch for the tracker type "TobiiV2" every participant is
    constructed without an event file and without a saccade file, from a
    sample file that exists. *)
Theorem tobii_v2_batch_files
        (datadir : string) (user_list pids : list string)
        (prune : option Z) (aoi : option string) (offs : option (list Z))
        (rv ap : bool) (rpsfile : option string) (w : World) :
  EYETRACKERTYPE = "TobiiV2" ->
  exists calls,
    ctor_calls
      (read_participants_Basic datadir user_list pids prune aoi offs rv ap
         rpsfile w).1
    = ctor_calls w ++ calls /\
    Forall (fun a => eventfile a = None /\ saccfile a = None /\
                     path_exists (datafile a) = true) calls.
Proof.
  intros Ht. unfold read_participants_Basic.
  destruct (read_rest_pupil_sizes rpsfile) as [rps|e];
    [|exists []; simpl; rewrite app_nil_r; split; [reflexivity|constructor]].
  generalize (zip3 user_list pids (offsets_or_default offs pids)).
  intros xs. generalize (@nil BasicParticipant). revert w.
  induction xs as [|x xs IH]; intros w ps; cbn [batch_loop].
  - exists []. simpl. rewrite app_nil_r. split; [reflexivity|constructor].
  - destruct (batch_step_files datadir prune aoi rv ap rps ps w x Ht)
      as (c1 & Hc1 & Hf1).
    destruct (batch_step datadir prune aoi rv ap rps ps w x) as [w1 [ps1|e]];
      cbn [fst] in Hc1.
    + destruct (IH w1 ps1) as (c2 & Hc2 & Hf2).
      exists (c1 ++ c2). rewrite Hc2, Hc1, app_assoc. split; [reflexivity|].
      apply Forall_app; split; assumption.
    + exists c1. cbn [fst]. split; assumption.
Qed.
End Batch_files.

Lemma saccades_bounded_by_saccade_samples_witness :
  @read_saccade_data (example_utils (6 # 10)) (stream_FFSSF ++ stream_more)
    = Ok [saccade_FFSSF; saccade_more] /\
  (2 <= length (saccade_samples (stream_FFSSF ++ stream_more)))%nat.
Proof.
  assert (H : @read_saccade_data (example_utils (6 # 10))
                (stream_FFSSF ++ stream_more)
              = Ok [saccade_FFSSF; saccade_more]) by (vm_compute; reflexivity).
  split; [exact H|].
  exact (@saccades_bounded_by_saccade_samples (example_utils (6 # 10)) _ _ H).
Defined.

Lemma tobii_v2_batch_files_witness :
  @EYETRACKERTYPE example_world = "TobiiV2" /\
  exists calls,
    ctor_calls
      (@read_participants_Basic example_world "data" ["p3"; "p4"; "p3"]
         ["p3"; "p4"; "p3"] None None None true false None empty_world).1
    = [] ++ calls /\
    Forall (fun a => eventfile a = None /\ saccfile a = None /\
                     @path_exists example_world (datafile a) = true) calls.
Proof.
  split; [reflexivity|].
  exact (@tobii_v2_batch_files example_world "data" ["p3"; "p4"; "p3"]
           ["p3"; "p4"; "p3"] None None None true false None empty_world
           eq_refl).
Defined.

(** ** [read_saccade_data] on dictionaries *)

Section Dict_facts.
Context `{U : EMDAT_utils}.

Lemma agrees_Ok {A} (row : gmap string string) (m r : result A) (a : A) :
  Dict.agrees row m r -> m = Ok a -> r = Ok a.
Proof. intros [<-|(c & _ & _ & ->)]; [auto | discriminate]. Qed.


(** A step whose value on the record is known. *)
Lemma agrees_then {A B} (row : gmap string string) (m : result A) (a : A)
      (f : A -> result B) (r : result B) :
  Dict.agrees row m (Ok a) -> Dict.agrees row (f a) r ->
  Dict.agrees row (m ≫= f) r.
Proof.
  intros [->|(c & Hc & Hrow & ->)] H; [exact H|].
  right. exists c. auto.
Qed.

Lemma agrees_bind {A B} (row : gmap string string) (m r : result A)
      (f g : A -> result B) :
  Dict.agrees row m r -> (forall a, Dict.agrees row (f a) (g a)) ->
  Dict.agrees row (m ≫= f) (r ≫= g).
Proof.
  intros [->|(c & Hc & Hrow & ->)] H.
  - destruct r as [a|e]; [apply H | left; reflexivity].
  - right. exists c. auto.
Qed.

Lemma agrees_getitem (row : gmap string string) (c : string) :
  In c Dict.columns ->
  Dict.agrees row (AllData.getitem row c) (Ok (Dict.column row c)).
Proof.
  intros Hc. unfold AllData.getitem, Dict.column.
  destruct (row !! c) eqn:E; [left; reflexivity|].
  right. exists c. auto.
Qed.

Lemma agrees_skipped (row : gmap string string) :
  Dict.agrees row (Dict.skipped row) (Ok (skipped (Dict.to_Row row))).
Proof.
  unfold Dict.skipped, skipped.
  eapply agrees_then; [apply agrees_getitem; in_columns|]. cbv beta.
  cbn [Dict.to_Row MediaName EyeTrackerTimestamp].
  destruct (negb (String.eqb _ _)); [left; reflexivity|].
  eapply agrees_then; [apply agrees_getitem; in_columns|]. left; reflexivity.
Qed.

Lemma agrees_eyes_valid (row : gmap string string) :
  Dict.agrees row (Dict.eyes_valid row) (Ok (eyes_valid (Dict.to_Row row))).
Proof.
  unfold Dict.eyes_valid, eyes_valid.
  eapply agrees_then; [apply agrees_getitem; in_columns|]. cbv beta.
  cbn [Dict.to_Row ValidityLeft ValidityRight].
  destruct (_ <? 2); [left; reflexivity|].
  eapply agrees_then; [apply agrees_getitem; in_columns|]. left; reflexivity.
Qed.

Lemma agrees_has_gaze (row : gmap string string) :
  Dict.agrees row (Dict.has_gaze row) (Ok (has_gaze (Dict.to_Row row))).
Proof.
  unfold Dict.has_gaze, has_gaze.
  eapply agrees_then; [apply agrees_getitem; in_columns|]. cbv beta.
  cbn [Dict.to_Row GazePointX GazePointY].
  destruct (truthy _); [|left; reflexivity].
  eapply agrees_then; [apply agrees_getitem; in_columns|]. left; reflexivity.
Qed.

Lemma agrees_has_fixation_point (row : gmap string string) :
  Dict.agrees row (Dict.has_fixation_point row)
    (Ok (has_fixation_point (Dict.to_Row row))).
Proof.
  unfold Dict.has_fixation_point, has_fixation_point.
  eapply agrees_then; [apply agrees_getitem; in_columns|]. cbv beta.
  cbn [Dict.to_Row FixationPointX FixationPointY].
  destruct (truthy _); [|left; reflexivity].
  eapply agrees_then; [apply agrees_getitem; in_columns|]. left; reflexivity.
Qed.

Lemma agrees_valid_gaze (row : gmap string string) :
  Dict.agrees row (Dict.valid_gaze row) (Ok (valid_gaze (Dict.to_Row row))).
Proof.
  unfold Dict.valid_gaze, valid_gaze.
  eapply agrees_then; [apply agrees_eyes_valid|]. cbv beta.
  destruct (eyes_valid _); [apply agrees_has_gaze | left; reflexivity].
Qed.

Lemma agrees_gaze_sample (row : gmap string string) :
  Dict.agrees row (Dict.gaze_sample row) (Ok (gaze_sample (Dict.to_Row row))).
Proof.
  unfold Dict.gaze_sample, gaze_sample.
  do 3 (eapply agrees_then; [apply agrees_getitem; in_columns|]; cbv beta).
  left; reflexivity.
Qed.

Lemma agrees_fixation_sample (row : gmap string string) :
  Dict.agrees row (Dict.fixation_sample row)
    (Ok (fixation_sample (Dict.to_Row row))).
Proof.
  unfold Dict.fixation_sample, fixation_sample.
  do 3 (eapply agrees_then; [apply agrees_getitem; in_columns|]; cbv beta).
  left; reflexivity.
Qed.

Lemma agrees_is_fixation (row : gmap string string) :
  Dict.agrees row (Dict.is_kind row "Fixation")
    (Ok (is_fixation (Dict.to_Row row))).
Proof.
  unfold Dict.is_kind, is_fixation.
  eapply agrees_then; [apply agrees_getitem; in_columns|]. left; reflexivity.
Qed.

Lemma agrees_is_saccade (row : gmap string string) :
  Dict.agrees row (Dict.is_kind row "Saccade")
    (Ok (is_saccade (Dict.to_Row row))).
Proof.
  unfold Dict.is_kind, is_saccade.
  eapply agrees_then; [apply agrees_getitem; in_columns|]. left; reflexivity.
Qed.

Lemma agrees_step_in_fixation (st : state) (row : gmap string string) :
  Dict.agrees row (Dict.step_in_fixation st row)
    (step_in_fixation st (Dict.to_Row row)).
Proof.
  unfold Dict.step_in_fixation, step_in_fixation.
  eapply agrees_then; [apply agrees_is_fixation|]. cbv beta.
  destruct (is_fixation _); [left; reflexivity|].
  eapply agrees_then; [apply agrees_is_saccade|]. cbv beta.
  destruct (is_saccade _); [|left; reflexivity].
  eapply agrees_then; [apply agrees_getitem; in_columns|]. cbv beta zeta.
  eapply agrees_then; [apply agrees_valid_gaze|]. cbv beta.
  destruct (valid_gaze _).
  - eapply agrees_then;
      [eapply agrees_then; [apply agrees_gaze_sample | left; reflexivity]|].
    left; reflexivity.
  - left; reflexivity.
Qed.

Lemma agrees_closing_window (st : state) (row : gmap string string) :
  Dict.agrees row (Dict.closing_window st row)
    (Ok (closing_window st (Dict.to_Row row))).
Proof.
  unfold Dict.closing_window, closing_window.
  eapply agrees_then; [apply agrees_valid_gaze|]. cbv beta.
  destruct (valid_gaze _).
  - eapply agrees_then;
      [eapply agrees_then; [apply agrees_gaze_sample | left; reflexivity]|].
    left; reflexivity.
  - eapply (agrees_then _ _
              (if has_fixation_point (Dict.to_Row row)
               then (saccade_vect st ++ [fixation_sample (Dict.to_Row row)],
                     nb_valid_sample st + 1)
               else (saccade_vect st, nb_valid_sample st))).
    + eapply agrees_then; [apply agrees_has_fixation_point|]. cbv beta.
      destruct (has_fixation_point _); [|left; reflexivity].
      eapply agrees_then; [apply agrees_fixation_sample | left; reflexivity].
    + destruct (has_fixation_point _); left; reflexivity.
Qed.

Lemma agrees_step_in_saccade (st : state) (row : gmap string string) :
  Dict.agrees row (Dict.step_in_saccade st row)
    (step_in_saccade st (Dict.to_Row row)).
Proof.
  unfold Dict.step_in_saccade, step_in_saccade.
  eapply agrees_then; [apply agrees_is_fixation|]. cbv beta.
  destruct (is_fixation _).
  - eapply agrees_then; [apply agrees_closing_window|]. cbv beta.
    destruct (closing_window st _) as [[v nv] ns].
    apply agrees_bind; [left; reflexivity|]. intros q.
    destruct (Qle_bool _ _); [|left; reflexivity].
    eapply agrees_then; [apply agrees_getitem; in_columns|].
    left; reflexivity.
  - eapply agrees_then; [apply agrees_is_saccade|]. cbv beta.
    destruct (is_saccade _); [|left; reflexivity].
    eapply agrees_then; [apply agrees_valid_gaze|]. cbv beta.
    destruct (valid_gaze _).
    + eapply agrees_then;
        [eapply agrees_then; [apply agrees_gaze_sample | left; reflexivity]|].
      left; reflexivity.
    + left; reflexivity.
Qed.

Lemma agrees_step_waiting (st : state) (row : gmap string string) :
  Dict.agrees row (Dict.step_waiting st row)
    (step_waiting st (Dict.to_Row row)).
Proof.
  unfold Dict.step_waiting, step_waiting.
  eapply agrees_then; [apply agrees_is_fixation|]. cbv beta.
  destruct (is_fixation _); left; reflexivity.
Qed.

Lemma agrees_update_last_gaze (st : state) (row : gmap string string) :
  Dict.agrees row (Dict.update_last_gaze st row)
    (Ok (update_last_gaze st (Dict.to_Row row))).
Proof.
  unfold Dict.update_last_gaze, Dict.new_last_gaze, update_last_gaze.
  eapply (agrees_then _ _
            (if has_gaze (Dict.to_Row row)
             then (gaze_sample (Dict.to_Row row), eyes_valid (Dict.to_Row row))
             else if is_fixation (Dict.to_Row row)
                     && has_fixation_point (Dict.to_Row row)
                  then (fixation_sample (Dict.to_Row row), true)
                  else (last_gaze_coord st, last_valid st))).
  - eapply agrees_then; [apply agrees_has_gaze|]. cbv beta.
    destruct (has_gaze _).
    + eapply agrees_then; [apply agrees_gaze_sample|]. cbv beta.
      eapply agrees_then; [apply agrees_eyes_valid|]. left; reflexivity.
    + eapply agrees_then; [apply agrees_is_fixation|]. cbv beta.
      destruct (is_fixation _); [|left; reflexivity].
      eapply agrees_then; [apply agrees_has_fixation_point|]. cbv beta.
      destruct (has_fixation_point _); [|left; reflexivity].
      eapply agrees_then; [apply agrees_fixation_sample|]. left; reflexivity.
  - destruct (has_gaze _); [left; reflexivity|].
    destruct (is_fixation _), (has_fixation_point _); left; reflexivity.
Qed.

(** One iteration on a dictionary is the iteration on its record, unless it
    raises the [KeyError] of a column the dictionary does not have. *)
Lemma agrees_step (st : state) (row : gmap string string) :
  Dict.agrees row (Dict.step st row) (step st (Dict.to_Row row)).
Proof.
  unfold Dict.step, step.
  eapply agrees_then; [apply agrees_skipped|]. cbv beta.
  destruct (skipped _); [left; reflexivity|].
  apply agrees_bind; [|intros st'; apply agrees_update_last_gaze].
  destruct (in_fixation st); [apply agrees_step_in_fixation|].
  destruct (in_saccade st);
    [apply agrees_step_in_saccade | apply agrees_step_waiting].
Qed.

Lemma agrees_complete {A} (row : gmap string string) (m r : result A) :
  Dict.complete row -> Dict.agrees row m r -> m = r.
Proof.
  intros Hrow [H|(c & Hc & Hnone & _)]; [exact H|].
  unfold Dict.complete in Hrow. rewrite Forall_forall in Hrow.
  destruct (Hrow c) as [v Hv].
  - apply list_elem_of_In. exact Hc.
  - congruence.
Qed.

(** A result on the dictionaries is the result on their records. *)
Lemma run_Ok (rows : list (gmap string string)) (st st' : state) :
  Dict.run st rows = Ok st' -> run st (Dict.to_Row <$> rows) = Ok st'.
Proof.
  unfold Dict.run, run. revert st.
  induction rows as [|row rows IH]; intros st H; [exact H|].
  cbn [foldM fmap list_fmap] in *.
  apply bind_Ok in H as (st1 & Hstep & Hrest).
  rewrite (agrees_Ok _ _ _ _ (agrees_step st row) Hstep).
  apply IH. exact Hrest.
Qed.

Lemma run_complete (rows : list (gmap string string)) (st : state) :
  Forall Dict.complete rows ->
  Dict.run st rows = run st (Dict.to_Row <$> rows).
Proof.
  unfold Dict.run, run. intros Hrows. revert st.
  induction Hrows as [|row rows Hrow _ IH]; intros st; [reflexivity|].
  cbn [foldM fmap list_fmap].
  rewrite (agrees_complete _ _ _ Hrow (agrees_step st row)).
  destruct (step st (Dict.to_Row row)) as [st1|e]; [apply IH | reflexivity].
Qed.




(** X24: on rows that have the eleven columns the loop on the dictionaries
    is the loop on their records. *)
Theorem complete_rows_as_records (rows : list (gmap string string)) :
  Forall Dict.complete rows ->
  Dict.read_saccade_data rows = read_saccade_data (Dict.to_Row <$> rows).
Proof.
  intros Hrows. unfold Dict.read_saccade_data, read_saccade_data.
  rewrite (run_complete rows init_state Hrows). reflexivity.
Qed.

(** X25: a result of the loop on the dictionaries, whether or not the rows
    have all the columns, is the result of the loop on their records. *)
Theorem dictionary_result_as_records
        (rows : list (gmap string string)) (l : list Saccade) :
  Dict.read_saccade_data rows = Ok l ->
  read_saccade_data (Dict.to_Row <$> rows) = Ok l.
Proof.
  unfold Dict.read_saccade_data, read_saccade_data. intros H.
  apply bind_Ok in H as (st & Hrun & Hl).
  rewrite (run_Ok _ _ _ Hrun). exact Hl.
Qed.

End Dict_facts.

Lemma to_Row_of_Row (r : Row) : Dict.to_Row (Dict.of_Row r) = r.
Proof. destruct r. vm_compute. reflexivity. Qed.

Lemma complete_of_Row (r : Row) : Dict.complete (Dict.of_Row r).
Proof.
  destruct r. unfold Dict.complete, Dict.columns.
  repeat constructor; vm_compute; eauto.
Qed.

(** The loop of Part I is the loop on dictionaries that have the eleven
    columns. *)
Lemma records_as_dictionaries `{U : EMDAT_utils} (rows : list Row) :
  Dict.read_saccade_data (Dict.of_Row <$> rows) = read_saccade_data rows.
Proof.
  unfold Dict.read_saccade_data, read_saccade_data.
  rewrite run_complete
    by (apply Forall_fmap, Forall_forall; intros r _; apply complete_of_Row).
  replace (Dict.to_Row <$> (Dict.of_Row <$> rows)) with rows; [reflexivity|].
  induction rows as [|r rows IH]; [reflexivity|].
  cbn [fmap list_fmap]. rewrite to_Row_of_Row. f_equal. exact IH.
Qed.


Lemma complete_rows_as_records_witness :
  Forall Dict.complete dict_FFSSF /\
  @Dict.read_saccade_data (example_utils (6 # 10)) dict_FFSSF
  = @read_saccade_data (example_utils (6 # 10)) (Dict.to_Row <$> dict_FFSSF).
Proof.
  assert (H : Forall Dict.complete dict_FFSSF).
  { unfold dict_FFSSF. apply Forall_fmap, Forall_forall.
    intros r _. apply complete_of_Row. }
  split; [exact H|].
  exact (@complete_rows_as_records (example_utils (6 # 10)) dict_FFSSF H).
Defined.

Lemma dictionary_result_as_records_witness :
  @Dict.read_saccade_data (example_utils (6 # 10)) dict_FFSSF_no_fixation_point
    = Ok [saccade_FFSSF] /\
  @read_saccade_data (example_utils (6 # 10))
    (Dict.to_Row <$> dict_FFSSF_no_fixation_point) = Ok [saccade_FFSSF].
Proof.
  assert (H : @Dict.read_saccade_data (example_utils (6 # 10))
                dict_FFSSF_no_fixation_point = Ok [saccade_FFSSF])
    by (vm_compute; reflexivity).
  split; [exact H|].
  exact (@dictionary_result_as_records (example_utils (6 # 10)) _ _ H).
Defined.
